(** * vcard: the mapping layer of [vcard.go]

    A shallow embedding of [vcard.go]: the [VCard] record and its
    companions, [getValueFromContentLine], [VCard.ReadFrom] and the
    [WriteTo] family, followed by the properties of that code.

    Conventions of the embedding.
    - Go strings are [string]s (sequences of bytes); a Go slice is a
      [list], the nil slice being [[]]; a Go [map[string]Value] is a
      [gmap string Value], a nil map being the empty map (reading a nil
      map behaves as reading an empty one).
    - Go [int] values are in [Z]; the only arithmetic is [len(x) - 1] and
      comparisons, so no wrap-around arises.
    - A run-time panic (index out of range) is the [None] of the
      execution monad [Exec].
    - [log.Printf] appends an entry to the log carried by the state. *)

From Stdlib Require Import Ascii String ZArith Lia.
From stdpp Require Import base option list strings gmap.

Open Scope string_scope.
Open Scope Z_scope.

(** ** Data model *)

(** [type Value []string] and [type StructuredValue []Value]. *)
Abbreviation Value := (list string).
Abbreviation StructuredValue := (list (list string)).

(** [type ContentLine struct { Group, Name string; Params map[string]Value;
    Value StructuredValue }], the fields in the order of the composite
    literals [ContentLine{group, name, params, value}] of [WriteTo]. *)
Record ContentLine := mkContentLine {
  cl_Group : string;
  cl_Name : string;
  cl_Params : gmap string (list string);
  cl_Value : StructuredValue
}.

Record Photo := mkPhoto {
  photo_Encoding : string;
  photo_Type : string;
  photo_Value : string;
  photo_Data : string
}.

Record Address := mkAddress {
  adr_Type : list string;
  adr_Label : string;
  adr_PostOfficeBox : string;
  adr_ExtendedAddress : string;
  adr_Street : string;
  adr_Locality : string;
  adr_Region : string;
  adr_PostalCode : string;
  adr_CountryName : string
}.

Record Telephone := mkTelephone { tel_Type : list string; tel_Number : string }.
Record Email := mkEmail { email_Type : list string; email_Address : string }.
Record XJabber := mkXJabber { jab_Type : list string; jab_Address : string }.

Record VCard := mkVCard {
  Version : string;
  FormattedName : string;
  FamilyNames : list string;
  GivenNames : list string;
  AdditionalNames : list string;
  HonorificNames : list string;
  HonorificSuffixes : list string;
  NickNames : list string;
  vc_Photo : Photo;
  Birthday : string;
  Addresses : list Address;
  Telephones : list Telephone;
  Emails : list Email;
  Title : string;
  Role : string;
  Org : list string;
  Categories : list string;
  Note : string;
  URL : string;
  XJabbers : list XJabber;
  XABuid : string;
  XABShowAs : string
}.

(** The zero values of the Go types. *)
Definition zeroPhoto : Photo := mkPhoto "" "" "" "".
Definition zeroAddress : Address := mkAddress [] "" "" "" "" "" "" "" "".
Definition zeroVCard : VCard :=
  mkVCard "" "" [] [] [] [] [] [] zeroPhoto "" [] [] [] "" "" [] [] "" "" [] "" "".

(** Field assignments [vcard.F = x]. *)
Definition set_Version (x : string) (v : VCard) : VCard :=
  let '(mkVCard _ b c d e f g h i j k l m n o p q r s t u w) := v in
  mkVCard x b c d e f g h i j k l m n o p q r s t u w.
Definition set_FormattedName (x : string) (v : VCard) : VCard :=
  let '(mkVCard a _ c d e f g h i j k l m n o p q r s t u w) := v in
  mkVCard a x c d e f g h i j k l m n o p q r s t u w.
Definition set_FamilyNames (x : list string) (v : VCard) : VCard :=
  let '(mkVCard a b _ d e f g h i j k l m n o p q r s t u w) := v in
  mkVCard a b x d e f g h i j k l m n o p q r s t u w.
Definition set_GivenNames (x : list string) (v : VCard) : VCard :=
  let '(mkVCard a b c _ e f g h i j k l m n o p q r s t u w) := v in
  mkVCard a b c x e f g h i j k l m n o p q r s t u w.
Definition set_AdditionalNames (x : list string) (v : VCard) : VCard :=
  let '(mkVCard a b c d _ f g h i j k l m n o p q r s t u w) := v in
  mkVCard a b c d x f g h i j k l m n o p q r s t u w.
Definition set_HonorificNames (x : list string) (v : VCard) : VCard :=
  let '(mkVCard a b c d e _ g h i j k l m n o p q r s t u w) := v in
  mkVCard a b c d e x g h i j k l m n o p q r s t u w.
Definition set_HonorificSuffixes (x : list string) (v : VCard) : VCard :=
  let '(mkVCard a b c d e f _ h i j k l m n o p q r s t u w) := v in
  mkVCard a b c d e f x h i j k l m n o p q r s t u w.
Definition set_NickNames (x : list string) (v : VCard) : VCard :=
  let '(mkVCard a b c d e f g _ i j k l m n o p q r s t u w) := v in
  mkVCard a b c d e f g x i j k l m n o p q r s t u w.
Definition set_Photo (x : Photo) (v : VCard) : VCard :=
  let '(mkVCard a b c d e f g h _ j k l m n o p q r s t u w) := v in
  mkVCard a b c d e f g h x j k l m n o p q r s t u w.
Definition set_Birthday (x : string) (v : VCard) : VCard :=
  let '(mkVCard a b c d e f g h i _ k l m n o p q r s t u w) := v in
  mkVCard a b c d e f g h i x k l m n o p q r s t u w.
Definition set_Addresses (x : list Address) (v : VCard) : VCard :=
  let '(mkVCard a b c d e f g h i j _ l m n o p q r s t u w) := v in
  mkVCard a b c d e f g h i j x l m n o p q r s t u w.
Definition set_Telephones (x : list Telephone) (v : VCard) : VCard :=
  let '(mkVCard a b c d e f g h i j k _ m n o p q r s t u w) := v in
  mkVCard a b c d e f g h i j k x m n o p q r s t u w.
Definition set_Emails (x : list Email) (v : VCard) : VCard :=
  let '(mkVCard a b c d e f g h i j k l _ n o p q r s t u w) := v in
  mkVCard a b c d e f g h i j k l x n o p q r s t u w.
Definition set_Title (x : string) (v : VCard) : VCard :=
  let '(mkVCard a b c d e f g h i j k l m _ o p q r s t u w) := v in
  mkVCard a b c d e f g h i j k l m x o p q r s t u w.
Definition set_Role (x : string) (v : VCard) : VCard :=
  let '(mkVCard a b c d e f g h i j k l m n _ p q r s t u w) := v in
  mkVCard a b c d e f g h i j k l m n x p q r s t u w.
Definition set_Org (x : list string) (v : VCard) : VCard :=
  let '(mkVCard a b c d e f g h i j k l m n o _ q r s t u w) := v in
  mkVCard a b c d e f g h i j k l m n o x q r s t u w.
Definition set_Categories (x : list string) (v : VCard) : VCard :=
  let '(mkVCard a b c d e f g h i j k l m n o p _ r s t u w) := v in
  mkVCard a b c d e f g h i j k l m n o p x r s t u w.
Definition set_Note (x : string) (v : VCard) : VCard :=
  let '(mkVCard a b c d e f g h i j k l m n o p q _ s t u w) := v in
  mkVCard a b c d e f g h i j k l m n o p q x s t u w.
Definition set_URL (x : string) (v : VCard) : VCard :=
  let '(mkVCard a b c d e f g h i j k l m n o p q r _ t u w) := v in
  mkVCard a b c d e f g h i j k l m n o p q r x t u w.
Definition set_XJabbers (x : list XJabber) (v : VCard) : VCard :=
  let '(mkVCard a b c d e f g h i j k l m n o p q r s _ u w) := v in
  mkVCard a b c d e f g h i j k l m n o p q r s x u w.
Definition set_XABuid (x : string) (v : VCard) : VCard :=
  let '(mkVCard a b c d e f g h i j k l m n o p q r s t _ w) := v in
  mkVCard a b c d e f g h i j k l m n o p q r s t x w.
Definition set_XABShowAs (x : string) (v : VCard) : VCard :=
  let '(mkVCard a b c d e f g h i j k l m n o p q r s t u _) := v in
  mkVCard a b c d e f g h i j k l m n o p q r s t u x.

Definition set_photo_Encoding (x : string) (p : Photo) : Photo :=
  mkPhoto x (photo_Type p) (photo_Value p) (photo_Data p).
Definition set_photo_Type (x : string) (p : Photo) : Photo :=
  mkPhoto (photo_Encoding p) x (photo_Value p) (photo_Data p).
Definition set_photo_Value (x : string) (p : Photo) : Photo :=
  mkPhoto (photo_Encoding p) (photo_Type p) x (photo_Data p).
Definition set_photo_Data (x : string) (p : Photo) : Photo :=
  mkPhoto (photo_Encoding p) (photo_Type p) (photo_Value p) x.

Definition set_adr_Type (x : list string) (a : Address) : Address :=
  let '(mkAddress _ b c d e f g h i) := a in mkAddress x b c d e f g h i.
Definition set_adr_PostOfficeBox (x : string) (a : Address) : Address :=
  let '(mkAddress t b _ d e f g h i) := a in mkAddress t b x d e f g h i.
Definition set_adr_ExtendedAddress (x : string) (a : Address) : Address :=
  let '(mkAddress t b c _ e f g h i) := a in mkAddress t b c x e f g h i.
Definition set_adr_Street (x : string) (a : Address) : Address :=
  let '(mkAddress t b c d _ f g h i) := a in mkAddress t b c d x f g h i.
Definition set_adr_Locality (x : string) (a : Address) : Address :=
  let '(mkAddress t b c d e _ g h i) := a in mkAddress t b c d e x g h i.
Definition set_adr_Region (x : string) (a : Address) : Address :=
  let '(mkAddress t b c d e f _ h i) := a in mkAddress t b c d e f x h i.
Definition set_adr_PostalCode (x : string) (a : Address) : Address :=
  let '(mkAddress t b c d e f g _ i) := a in mkAddress t b c d e f g x i.
Definition set_adr_CountryName (x : string) (a : Address) : Address :=
  let '(mkAddress t b c d e f g h _) := a in mkAddress t b c d e f g h x.

(** [func defaultAddressTypes() (types []string)]. *)
Definition defaultAddressTypes : list string := ["Intl"; "Postal"; "Parcel"; "Work"].

(** The index constants of the two [const] blocks. *)
Definition familyNames : Z := 0.
Definition givenNames : Z := 1.
Definition additionalNames : Z := 2.
Definition honorificPrefixes : Z := 3.
Definition honorificSuffixes : Z := 4.
Definition nameSize : Z := honorificSuffixes + 1.

Definition postOfficeBox : Z := 0.
Definition extendedAddress : Z := 1.
Definition street : Z := 2.
Definition locality : Z := 3.
Definition region : Z := 4.
Definition postalCode : Z := 5.
Definition countryName : Z := 6.
Definition addressSize : Z := countryName + 1.

(** ** The rest of the package

    [vcard.go] calls into the package's directory-information engine,
    whose source is not part of this development. Its operations are the
    fields of the class below; every definition and theorem that follows
    is stated for an arbitrary instance.
    - [Value_GetText] is [Value.GetText], [SV_GetText] is
      [StructuredValue.GetText] and [SV_GetTextList] is
      [StructuredValue.GetTextList];
    - [qpReadAll text] is
      [ioutil.ReadAll(newQuotedPrintableReader(strings.NewReader(text)))]:
      the bytes read and the error, [None] being Go's [nil] error. *)
Class DirInfo := {
  Value_GetText : Value -> string;
  SV_GetText : StructuredValue -> string;
  SV_GetTextList : StructuredValue -> list string;
  qpReadAll : string -> string * option string
}.

(** [strings.ToLower] of the Go library, for ASCII text: the letters
    [A]-[Z] are mapped to [a]-[z] and every other byte is kept. Outside
    ASCII the Go function also lowers the capital letters of other
    scripts; no property below depends on the text of an [ENCODING]
    parameter being outside ASCII. *)
Definition lower_ascii (c : Ascii.ascii) : Ascii.ascii :=
  let n := Ascii.nat_of_ascii c in
  if ((65 <=? n) && (n <=? 90))%nat then Ascii.ascii_of_nat (n + 32) else c.

Fixpoint ToLower (s : string) : string :=
  match s with
  | EmptyString => EmptyString
  | String c r => String (lower_ascii c) (ToLower r)
  end.

(** Modelled from the spec: [DirectoryInfoReader] and its
    [ReadContentLine] are not in [vcard.go]. The facade is a cursor over
    the logical lines of the stream ("readContentLine() -> ContentLine |
    none-at-end", "no additional state beyond the underlying stream
    cursor"): the reader is the list of content lines still to come, and
    [ReadContentLine] returns the next one, or [None] (Go's [nil]) at the
    end of the stream. *)
Abbreviation DirectoryInfoReader := (list ContentLine).

Definition ReadContentLine (di : DirectoryInfoReader)
  : option ContentLine * DirectoryInfoReader :=
  match di with
  | [] => (None, [])
  | contentLine :: di' => (Some contentLine, di')
  end.

(** Modelled from the spec: [DirectoryInfoWriter] and its
    [WriteContentLine] are not in [vcard.go]. The writer is the sequence
    of content lines handed to it so far, in the order of the calls
    ("writeLine(line: ContentLine)", the sink owned sequentially). *)
Abbreviation DirectoryInfoWriter := (list ContentLine).

Definition WriteContentLine (line : ContentLine) (di : DirectoryInfoWriter)
  : DirectoryInfoWriter := di ++ [line].

(** ** Diagnostics written with [log.Printf] *)

Inductive LogEntry :=
| N_more_fields (n : Z)       (* "N data has more fields: %d\n" *)
| N_less_fields (n : Z)       (* "N data has less fields: %d\n" *)
| N_no_field                  (* "Error: N data has no field\n" *)
| ADR_more_fields (n : Z)     (* "ADR data has more fields: %d\n" *)
| ADR_less_fields (n : Z)     (* "ADR data has less fields: %d\n" *)
| ADR_no_field                (* "Error: ADR data has no field\n" *)
| Not_read (group name : string) (value : StructuredValue).
                              (* "Not read %s, %s: %s\n" *)

(** ** Execution monad: the receiver, the log, and panics *)

Record State := mkState { card : VCard; logged : list LogEntry }.

Definition Exec (A : Type) : Type := State -> option (A * State).

Global Instance Exec_ret : MRet Exec := fun A (a : A) st => Some (a, st).
Global Instance Exec_bind : MBind Exec := fun A B (k : A -> Exec B) (m : Exec A) st =>
  match m st with
  | Some (a, st') => k a st'
  | None => None
  end.

(** A possibly panicking pure computation. *)
Definition lift {A} (o : option A) : Exec A := fun st =>
  match o with Some a => Some (a, st) | None => None end.

(** [vcard.F = x], for the setter of [F]. *)
Definition assign (f : VCard -> VCard) : Exec unit := fun st =>
  Some (tt, mkState (f (card st)) (logged st)).

Definition logPrintf (e : LogEntry) : Exec unit := fun st =>
  Some (tt, mkState (card st) (logged st ++ [e])).

(** ** Reading *)

(** The index expression [sv[index]]: out of range is a panic. *)
Definition index_at (sv : StructuredValue) (index : Z) : option Value :=
  if index <? 0 then None else sv !! Z.to_nat index.

(** The map read [params[key]]: the zero value (nil) for a missing key. *)
Definition param_at (params : gmap string (list string)) (key : string) : Value :=
  default [] (params !! key).

Section Reading.
Context `{DirInfo}.

Definition getValueFromContentLine (index : Z) (contentLine : ContentLine)
  : option (list string * string) :=
  let maxIndex := Z.of_nat (length (cl_Value contentLine)) - 1 in
  if maxIndex >=? index then
    v ← index_at (cl_Value contentLine) index;
    let text := Value_GetText v in
    if String.eqb (ToLower (Value_GetText (param_at (cl_Params contentLine) "ENCODING")))
                  "quoted-printable" then
      let '(bytes, err) := qpReadAll text in
      match err with
      | Some _ => Some (v, text)
      | None => Some (v, bytes)
      end
    else Some (v, text)
  else Some ([], "").

(** How one pass through the [switch] ends: [Return] is the [return] of
    the [END] case, [Next] is reaching the end of the loop body. *)
Inductive Flow := Next | Return.

(** [case a: fallthrough; case b: ...]: the tag equals one of the listed
    strings (Go's [==] on strings, byte for byte). *)
Definition case_of (tag : string) (labels : list string) : bool :=
  existsb (String.eqb tag) labels.

(** The type list of a [TEL], [EMAIL] or [ADR] entry:
    [if param, ok := contentLine.Params[key]; ok { t = param } else { t = dflt }]. *)
Definition type_param (contentLine : ContentLine) (key : string) (dflt : list string)
  : list string :=
  match cl_Params contentLine !! key with
  | Some param => param
  | None => dflt
  end.

(** The [N] case. *)
Definition read_N (contentLine : ContentLine) : Exec unit :=
  let contentLineLength := Z.of_nat (length (cl_Value contentLine)) in
  if contentLineLength >? 0 then
    r ← lift (getValueFromContentLine familyNames contentLine);
    assign (set_FamilyNames r.1);;
    r ← lift (getValueFromContentLine givenNames contentLine);
    assign (set_GivenNames r.1);;
    r ← lift (getValueFromContentLine additionalNames contentLine);
    assign (set_AdditionalNames r.1);;
    r ← lift (getValueFromContentLine honorificPrefixes contentLine);
    assign (set_HonorificNames r.1);;
    r ← lift (getValueFromContentLine honorificSuffixes contentLine);
    assign (set_HonorificSuffixes r.1);;
    if contentLineLength >? nameSize then logPrintf (N_more_fields contentLineLength)
    else if contentLineLength <? nameSize then logPrintf (N_less_fields contentLineLength)
    else mret tt
  else logPrintf N_no_field.

(** The [PHOTO] case. *)
Definition read_PHOTO (contentLine : ContentLine) : Exec unit :=
  let params := cl_Params contentLine in
  assign (λ v, set_Photo (set_photo_Encoding (Value_GetText (param_at params "ENCODING")) (vc_Photo v)) v);;
  assign (λ v, set_Photo (set_photo_Type (Value_GetText (param_at params "TYPE")) (vc_Photo v)) v);;
  assign (λ v, set_Photo (set_photo_Value (Value_GetText (param_at params "VALUE")) (vc_Photo v)) v);;
  assign (λ v, set_Photo (set_photo_Data (SV_GetText (cl_Value contentLine)) (vc_Photo v)) v).

(** The [ADR] case. *)
Definition read_ADR (contentLine : ContentLine) : Exec unit :=
  let contentLineLength := Z.of_nat (length (cl_Value contentLine)) in
  if contentLineLength >? 0 then
    let address := zeroAddress in
    let address := set_adr_Type (type_param contentLine "TYPE" defaultAddressTypes) address in
    r ← lift (getValueFromContentLine postOfficeBox contentLine);
    let address := set_adr_PostOfficeBox r.2 address in
    r ← lift (getValueFromContentLine extendedAddress contentLine);
    let address := set_adr_ExtendedAddress r.2 address in
    r ← lift (getValueFromContentLine street contentLine);
    let address := set_adr_Street r.2 address in
    r ← lift (getValueFromContentLine locality contentLine);
    let address := set_adr_Locality r.2 address in
    r ← lift (getValueFromContentLine region contentLine);
    let address := set_adr_Region r.2 address in
    r ← lift (getValueFromContentLine postalCode contentLine);
    let address := set_adr_PostalCode r.2 address in
    r ← lift (getValueFromContentLine countryName contentLine);
    let address := set_adr_CountryName r.2 address in
    assign (λ v, set_Addresses (Addresses v ++ [address]) v);;
    if contentLineLength >? addressSize then logPrintf (ADR_more_fields contentLineLength)
    else if contentLineLength <? addressSize then logPrintf (ADR_less_fields contentLineLength)
    else mret tt
  else logPrintf ADR_no_field.

(** The [TEL], [EMAIL] and [X-JABBER]/[X-GTALK] cases. *)
Definition read_TEL (contentLine : ContentLine) : Exec unit :=
  let tel := mkTelephone (type_param contentLine "type" ["voice"])
                         (SV_GetText (cl_Value contentLine)) in
  assign (λ v, set_Telephones (Telephones v ++ [tel]) v).

Definition read_EMAIL (contentLine : ContentLine) : Exec unit :=
  let email := mkEmail (type_param contentLine "type" ["HOME"])
                       (SV_GetText (cl_Value contentLine)) in
  assign (λ v, set_Emails (Emails v ++ [email]) v).

Definition read_XJABBER (contentLine : ContentLine) : Exec unit :=
  let jabber := mkXJabber (type_param contentLine "type" ["HOME"])
                          (SV_GetText (cl_Value contentLine)) in
  assign (λ v, set_XJabbers (XJabbers v ++ [jabber]) v).

(** The body of the loop of [ReadFrom]: the [switch] on
    [contentLine.Name]. The receiver [vcard] is taken to be non-nil (the
    test [vcard != nil] of the [FN] case succeeds). *)
Definition switch_Name (contentLine : ContentLine) : Exec Flow :=
  let name := cl_Name contentLine in
  let text := SV_GetText (cl_Value contentLine) in
  if case_of name ["VERSION"; "version"] then assign (set_Version text);; mret Next
  else if case_of name ["END"; "end"] then
    if String.eqb text "VCARD" then mret Return else mret Next
  else if case_of name ["FN"; "fn"] then assign (set_FormattedName text);; mret Next
  else if case_of name ["N"; "n"] then read_N contentLine;; mret Next
  else if case_of name ["NICKNAME"; "nickname"] then
    assign (set_NickNames (SV_GetTextList (cl_Value contentLine)));; mret Next
  else if case_of name ["PHOTO"; "photo"] then read_PHOTO contentLine;; mret Next
  else if case_of name ["BDAY"; "bday"] then assign (set_Birthday text);; mret Next
  else if case_of name ["ADR"; "adr"] then read_ADR contentLine;; mret Next
  else if case_of name ["X-ABUID"; "x-abuid"] then assign (set_XABuid text);; mret Next
  else if case_of name ["TEL"; "tel"] then read_TEL contentLine;; mret Next
  else if case_of name ["EMAIL"; "email"] then read_EMAIL contentLine;; mret Next
  else if case_of name ["TITLE"; "title"] then assign (set_Title text);; mret Next
  else if case_of name ["ROLE"; "role"] then assign (set_Role text);; mret Next
  else if case_of name ["ORG"; "org"] then
    assign (set_Org (SV_GetTextList (cl_Value contentLine)));; mret Next
  else if case_of name ["CATEGORIES"; "categories"] then
    assign (set_Categories (SV_GetTextList (cl_Value contentLine)));; mret Next
  else if case_of name ["NOTE"; "note"] then assign (set_Note text);; mret Next
  else if case_of name ["URL"; "url"] then assign (set_URL text);; mret Next
  else if case_of name ["X-JABBER"; "x-jabber"; "X-GTALK"; "x-gtalk"] then
    read_XJABBER contentLine;; mret Next
  else if case_of name ["X-ABShowAs"] then assign (set_XABShowAs text);; mret Next
  else
    logPrintf (Not_read (cl_Group contentLine) name (cl_Value contentLine));; mret Next.

(** [func (vcard *VCard) ReadFrom(di *DirectoryInfoReader)]: the result
    is the reader as the call leaves it; the receiver and the log are in
    the state. The recursion is on the lines still to come; that it is
    the loop around [ReadContentLine] is [ReadFrom_unfold]. *)
Fixpoint ReadFrom (di : DirectoryInfoReader) : Exec DirectoryInfoReader :=
  match di with
  | [] => mret []
  | contentLine :: di' =>
      flow ← switch_Name contentLine;
      match flow with
      | Return => mret di'
      | Next => ReadFrom di'
      end
  end.

End Reading.

(** ** Writing *)

(** [len(x) != 0] for a string and for a slice. *)
Definition nonempty_string (s : string) : bool := negb (Nat.eqb (String.length s) 0).
Definition nonempty_slice {A} (l : list A) : bool := negb (Nat.eqb (length l) 0).

(** [if c { params[k] = v }]. *)
Definition insert_if (c : bool) (k : string) (v : list string)
    (params : gmap string (list string)) : gmap string (list string) :=
  if c then <[k := v]> params else params.

(** [if c { di.WriteContentLine(line) }]. *)
Definition write_if (c : bool) (line : ContentLine) (di : DirectoryInfoWriter)
  : DirectoryInfoWriter :=
  if c then WriteContentLine line di else di.

(** [func (photo *Photo) WriteTo(di *DirectoryInfoWriter)]. *)
Definition Photo_WriteTo (photo : Photo) (di : DirectoryInfoWriter) : DirectoryInfoWriter :=
  if Nat.eqb (String.length (photo_Data photo)) 0 then di
  else
    let params : gmap string (list string) := ∅ in
    let params :=
      insert_if (negb (String.eqb (photo_Encoding photo) "")) "ENCODING"
                [photo_Encoding photo] params in
    let params :=
      insert_if (negb (String.eqb (photo_Type photo) "")) "type" [photo_Type photo] params in
    let params :=
      insert_if (negb (String.eqb (photo_Value photo) "")) "VALUE" [photo_Value photo] params in
    let params :=
      insert_if (String.eqb (photo_Encoding photo) "" && String.eqb (photo_Type photo) ""
                 && String.eqb (photo_Value photo) "") "BASE64" [] params in
    WriteContentLine (mkContentLine "" "PHOTO" params [[photo_Data photo]]) di.

(** [func (addr *Address) WriteTo(di *DirectoryInfoWriter)]. *)
Definition Address_WriteTo (addr : Address) (di : DirectoryInfoWriter) : DirectoryInfoWriter :=
  let params : gmap string (list string) := <["type" := adr_Type addr]> ∅ in
  WriteContentLine
    (mkContentLine "" "ADR" params
       [[adr_PostOfficeBox addr]; [adr_ExtendedAddress addr]; [adr_Street addr];
        [adr_Locality addr]; [adr_Region addr]; [adr_PostalCode addr];
        [adr_CountryName addr]]) di.

(** [func (tel *Telephone) WriteTo(di *DirectoryInfoWriter)]. *)
Definition Telephone_WriteTo (tel : Telephone) (di : DirectoryInfoWriter)
  : DirectoryInfoWriter :=
  let params : gmap string (list string) := <["type" := tel_Type tel]> ∅ in
  WriteContentLine (mkContentLine "" "TEL" params [[tel_Number tel]]) di.

(** [func (email *Email) WriteTo(di *DirectoryInfoWriter)]. *)
Definition Email_WriteTo (email : Email) (di : DirectoryInfoWriter) : DirectoryInfoWriter :=
  let params : gmap string (list string) := <["type" := email_Type email]> ∅ in
  WriteContentLine (mkContentLine "" "EMAIL" params [[email_Address email]]) di.

(** [func (jab *XJabber) WriteTo(di *DirectoryInfoWriter)]. *)
Definition XJabber_WriteTo (jab : XJabber) (di : DirectoryInfoWriter) : DirectoryInfoWriter :=
  let params : gmap string (list string) := <["type" := jab_Type jab]> ∅ in
  WriteContentLine (mkContentLine "" "X-JABBER" params [[jab_Address jab]]) di.

(** [for _, x := range xs { x.WriteTo(di) }]. *)
Definition range_WriteTo {A} (w : A -> DirectoryInfoWriter -> DirectoryInfoWriter)
    (xs : list A) (di : DirectoryInfoWriter) : DirectoryInfoWriter :=
  fold_left (λ di x, w x di) xs di.

(** [func (vcard *VCard) WriteTo(di *DirectoryInfoWriter)]. *)
Definition VCard_WriteTo (vcard : VCard) (di : DirectoryInfoWriter) : DirectoryInfoWriter :=
  let di := WriteContentLine (mkContentLine "" "BEGIN" ∅ [["VCARD"]]) di in
  let di := WriteContentLine (mkContentLine "" "VERSION" ∅ [["3.0"]]) di in
  let di := WriteContentLine (mkContentLine "" "FN" ∅ [[FormattedName vcard]]) di in
  let di :=
    WriteContentLine
      (mkContentLine "" "N" ∅
         [FamilyNames vcard; GivenNames vcard; AdditionalNames vcard;
          HonorificNames vcard; HonorificSuffixes vcard]) di in
  let di := write_if (nonempty_slice (NickNames vcard))
              (mkContentLine "" "NICKNAME" ∅ [NickNames vcard]) di in
  let di := Photo_WriteTo (vc_Photo vcard) di in
  let di := write_if (nonempty_string (Birthday vcard))
              (mkContentLine "" "BDAY" ∅ [[Birthday vcard]]) di in
  let di := range_WriteTo Address_WriteTo (Addresses vcard) di in
  let di := range_WriteTo Telephone_WriteTo (Telephones vcard) di in
  let di := range_WriteTo Email_WriteTo (Emails vcard) di in
  let di := write_if (nonempty_string (Title vcard))
              (mkContentLine "" "TITLE" ∅ [[Title vcard]]) di in
  let di := write_if (nonempty_string (Role vcard))
              (mkContentLine "" "ROLE" ∅ [[Role vcard]]) di in
  let di := write_if (nonempty_slice (Org vcard))
              (mkContentLine "" "ORG" ∅ [Org vcard]) di in
  let di := write_if (nonempty_slice (Categories vcard))
              (mkContentLine "" "CATEGORIES" ∅ [Categories vcard]) di in
  let di := write_if (nonempty_string (Note vcard))
              (mkContentLine "" "NOTE" ∅ [[Note vcard]]) di in
  let di := write_if (nonempty_string (URL vcard))
              (mkContentLine "" "URL" ∅ [[URL vcard]]) di in
  let di := range_WriteTo XJabber_WriteTo (XJabbers vcard) di in
  let di := write_if (nonempty_string (XABShowAs vcard))
              (mkContentLine "" "X-ABShowAs" ∅ [[XABShowAs vcard]]) di in
  let di := write_if (nonempty_string (XABuid vcard))
              (mkContentLine "" "X-ABUID" ∅ [[XABuid vcard]]) di in
  WriteContentLine (mkContentLine "" "END" ∅ [["VCARD"]]) di.

(** ** A concrete instance of the rest of the package, for the examples *)

(** Modelled from the spec: [Value.GetText], [StructuredValue.GetText]
    and [StructuredValue.GetTextList] are not in [vcard.go]. "A Value with
    a single element renders as plain text": the text of a value is its
    first string, the text of a structured value is the text of its first
    component, its text list is its first component; all are empty when
    there is nothing to take. The examples only use single-element
    values. *)
Definition first_text (v : Value) : string :=
  match v with
  | [] => ""
  | s :: _ => s
  end.

Definition sv_first_text (sv : StructuredValue) : string :=
  match sv with
  | [] => ""
  | v :: _ => first_text v
  end.

Definition sv_first_list (sv : StructuredValue) : list string :=
  match sv with
  | [] => []
  | v :: _ => v
  end.

(** Modelled from the spec: the quoted-printable reader is not in
    [vcard.go]. "Decoding scans for =XX escapes (two hex digits) and
    replaces them with the corresponding byte; a trailing = at end of line
    denotes a soft line break and is removed"; it "fails with
    MalformedEscape when = is not followed by two valid hex digits or a
    line-ending soft-break marker". *)
Definition hex_digit (c : Ascii.ascii) : option nat :=
  let n := Ascii.nat_of_ascii c in
  if ((48 <=? n) && (n <=? 57))%nat then Some (n - 48)%nat
  else if ((65 <=? n) && (n <=? 70))%nat then Some (n - 55)%nat
  else if ((97 <=? n) && (n <=? 102))%nat then Some (n - 87)%nat
  else None.

Fixpoint qp_decode (s : string) : option string :=
  match s with
  | EmptyString => Some EmptyString
  | String "="%char EmptyString => Some EmptyString
  | String "="%char (String "010"%char r) => qp_decode r
  | String "="%char (String "013"%char (String "010"%char r)) => qp_decode r
  | String "="%char (String h (String l r)) =>
      match hex_digit h, hex_digit l with
      | Some a, Some b =>
          String (Ascii.ascii_of_nat (16 * a + b)%nat) <$> qp_decode r
      | _, _ => None
      end
  | String "="%char _ => None
  | String c r => String c <$> qp_decode r
  end.

Definition qp_read_all (text : string) : string * option string :=
  match qp_decode text with
  | Some bytes => (bytes, None)
  | None => ("", Some "MalformedEscape")
  end.

Definition sampleDirInfo : DirInfo :=
  {| Value_GetText := first_text;
     SV_GetText := sv_first_text;
     SV_GetTextList := sv_first_list;
     qpReadAll := qp_read_all |}.

(** ** Vocabulary of the properties *)

Section Vocabulary.
Context `{DirInfo}.

(** What [getValueFromContentLine] returns as text for a component [v]:
    the decoded bytes when the encoding is declared and decoding
    succeeds, the raw text otherwise. *)
Definition delivered_text (contentLine : ContentLine) (v : Value) : string :=
  if String.eqb (ToLower (Value_GetText (param_at (cl_Params contentLine) "ENCODING")))
                "quoted-printable"
  then match (qpReadAll (Value_GetText v)).2 with
       | Some _ => Value_GetText v
       | None => (qpReadAll (Value_GetText v)).1
       end
  else Value_GetText v.

(** The result for any index that is not negative, in one equation. *)
Definition component_at (contentLine : ContentLine) (index : Z) : list string * string :=
  match cl_Value contentLine !! Z.to_nat index with
  | Some v => (v, delivered_text contentLine v)
  | None => ([], "")
  end.

(** The diagnostics of the [N] and [ADR] cases. *)
Definition N_diagnostics (contentLineLength : Z) : list LogEntry :=
  if contentLineLength >? nameSize then [N_more_fields contentLineLength]
  else if contentLineLength <? nameSize then [N_less_fields contentLineLength]
  else [].

Definition ADR_diagnostics (contentLineLength : Z) : list LogEntry :=
  if contentLineLength >? addressSize then [ADR_more_fields contentLineLength]
  else if contentLineLength <? addressSize then [ADR_less_fields contentLineLength]
  else [].

(** The five assignments of the [N] case. *)
Definition N_assigned (contentLine : ContentLine) (v : VCard) : VCard :=
  set_HonorificSuffixes (component_at contentLine honorificSuffixes).1
    (set_HonorificNames (component_at contentLine honorificPrefixes).1
       (set_AdditionalNames (component_at contentLine additionalNames).1
          (set_GivenNames (component_at contentLine givenNames).1
             (set_FamilyNames (component_at contentLine familyNames).1 v)))).

(** The address built by the [ADR] case. *)
Definition ADR_address (contentLine : ContentLine) : Address :=
  mkAddress (type_param contentLine "TYPE" defaultAddressTypes) ""
    (component_at contentLine postOfficeBox).2
    (component_at contentLine extendedAddress).2
    (component_at contentLine street).2
    (component_at contentLine locality).2
    (component_at contentLine region).2
    (component_at contentLine postalCode).2
    (component_at contentLine countryName).2.

(** The content lines that end the read: the name is [END] in one of the
    two spellings of the [switch] and the text of the value is [VCARD]. *)
Definition is_END_VCARD (contentLine : ContentLine) : bool :=
  case_of (cl_Name contentLine) ["END"; "end"]
  && String.eqb (SV_GetText (cl_Value contentLine)) "VCARD".

(** The labels of the [switch]. *)
Definition case_labels : list string :=
  ["VERSION"; "version"; "END"; "end"; "FN"; "fn"; "N"; "n";
   "NICKNAME"; "nickname"; "PHOTO"; "photo"; "BDAY"; "bday"; "ADR"; "adr";
   "X-ABUID"; "x-abuid"; "TEL"; "tel"; "EMAIL"; "email"; "TITLE"; "title";
   "ROLE"; "role"; "ORG"; "org"; "CATEGORIES"; "categories"; "NOTE"; "note";
   "URL"; "url"; "X-JABBER"; "x-jabber"; "X-GTALK"; "x-gtalk"; "X-ABShowAs"].

(** What one pass through the [switch] logs. *)
Definition diagnostics_of (contentLine : ContentLine) : list LogEntry :=
  let name := cl_Name contentLine in
  let contentLineLength := Z.of_nat (length (cl_Value contentLine)) in
  if case_of name ["N"; "n"] then
    if contentLineLength >? 0 then N_diagnostics contentLineLength else [N_no_field]
  else if case_of name ["ADR"; "adr"] then
    if contentLineLength >? 0 then ADR_diagnostics contentLineLength else [ADR_no_field]
  else if case_of name case_labels then []
  else [Not_read (cl_Group contentLine) name (cl_Value contentLine)].

End Vocabulary.

(** The field of an address that the [ADR] case fills from the component
    at [index]. *)
Definition address_field (index : Z) (address : Address) : string :=
  if index =? postOfficeBox then adr_PostOfficeBox address
  else if index =? extendedAddress then adr_ExtendedAddress address
  else if index =? street then adr_Street address
  else if index =? locality then adr_Locality address
  else if index =? region then adr_Region address
  else if index =? postalCode then adr_PostalCode address
  else if index =? countryName then adr_CountryName address
  else "".

(** The instance [D] with another quoted-printable reader. *)
Definition with_decoder (D : DirInfo) (qp : string -> string * option string) : DirInfo :=
  {| Value_GetText := @Value_GetText D;
     SV_GetText := @SV_GetText D;
     SV_GetTextList := @SV_GetTextList D;
     qpReadAll := qp |}.

(** The content lines written between [VERSION] and [END] are not named
    [BEGIN], [VERSION] or [END]. *)
Definition body_line (line : ContentLine) : Prop :=
  case_of (cl_Name line) ["BEGIN"; "VERSION"; "END"] = false.

(** [di'] is [di] followed by lines of the body. *)
Definition extends (di di' : DirectoryInfoWriter) : Prop :=
  exists out, di' = (di ++ out)%list /\ Forall body_line out.

(** Content lines and parameters of the examples. *)
Definition sample_line (name text : string) : ContentLine :=
  mkContentLine "" name ∅ [[text]].

Definition sample_qp_params : gmap string (list string) :=
  {["ENCODING" := ["QUOTED-PRINTABLE"]]}.

(** ** Display *)

(** [func displayStrings(ss []string) (display string)]:
    [for _, s := range ss { display += s + ", " }]. *)
Definition displayStrings (ss : list string) : string :=
  fold_left (λ display s, String.append display (String.append s ", ")) ss "".

(** The one-byte string ["\n"]. *)
Definition newline : string := String (Ascii.ascii_of_nat 10) EmptyString.

(** [func (v VCard) String() (s string)]. *)
Definition VCard_String (v : VCard) : string :=
  let s := String.append (String.append "VCard version: " (Version v)) newline in
  let s := String.append s (String.append (String.append "FormattedName:" (FormattedName v)) newline) in
  let s := String.append s (String.append (String.append "FamilyNames:" (displayStrings (FamilyNames v))) newline) in
  let s := String.append s (String.append (String.append "GivenNames:" (displayStrings (GivenNames v))) newline) in
  let s := String.append s (String.append (String.append "AdditionalNames:" (displayStrings (AdditionalNames v))) newline) in
  s.

(** ** Vocabulary of the further properties *)

(** What is asked of the rest of the package where a property reads back
    what [WriteTo] wrote: the text of a value holding one string is that
    string, the text of the nil value is empty, the text of a structured
    value holding one such value is that string, and the text list of a
    structured value holding one value is that value. *)
Definition plain_text (D : DirInfo) : Prop :=
  (forall s, @Value_GetText D [s] = s)
  /\ @Value_GetText D [] = ""
  /\ (forall s, @SV_GetText D [[s]] = s)
  /\ (forall l, @SV_GetTextList D [l] = l).

(** The lines written under a condition. *)
Definition lines_if (c : bool) (line : ContentLine) : list ContentLine :=
  if c then [line] else [].

(** What [ReadFrom] makes of a photo, an address and a card written by
    [WriteTo]: the photo type is written under [type] and looked up under
    [TYPE], a photo without data is not written; the address type is
    written under [type] and looked up under [TYPE], the label is never
    written; the version written is always [3.0]. *)
Definition read_back_photo (photo : Photo) : Photo :=
  if Nat.eqb (String.length (photo_Data photo)) 0 then zeroPhoto
  else set_photo_Type "" photo.

Definition read_back_address (addr : Address) : Address :=
  mkAddress defaultAddressTypes "" (adr_PostOfficeBox addr) (adr_ExtendedAddress addr)
    (adr_Street addr) (adr_Locality addr) (adr_Region addr) (adr_PostalCode addr)
    (adr_CountryName addr).

Definition read_back (vcard : VCard) : VCard :=
  set_Addresses (read_back_address <$> Addresses vcard)
    (set_Photo (read_back_photo (vc_Photo vcard)) (set_Version "3.0" vcard)).

Section FurtherVocabulary.
Context `{DirInfo}.

(** The lines [ReadFrom] takes from the reader: up to and including the
    first [END] line with value [VCARD]. *)
Fixpoint consumed (di : DirectoryInfoReader) : list ContentLine :=
  match di with
  | [] => []
  | contentLine :: di' =>
      if is_END_VCARD contentLine then [contentLine] else contentLine :: consumed di'
  end.

(** The entries one content line adds to the four lists of the card. *)
Definition address_entries (contentLine : ContentLine) : list Address :=
  if case_of (cl_Name contentLine) ["ADR"; "adr"]
     && (Z.of_nat (length (cl_Value contentLine)) >? 0)
  then [ADR_address contentLine] else [].

Definition telephone_entries (contentLine : ContentLine) : list Telephone :=
  if case_of (cl_Name contentLine) ["TEL"; "tel"]
  then [mkTelephone (type_param contentLine "type" ["voice"])
                    (SV_GetText (cl_Value contentLine))]
  else [].

Definition email_entries (contentLine : ContentLine) : list Email :=
  if case_of (cl_Name contentLine) ["EMAIL"; "email"]
  then [mkEmail (type_param contentLine "type" ["HOME"]) (SV_GetText (cl_Value contentLine))]
  else [].

Definition jabber_entries (contentLine : ContentLine) : list XJabber :=
  if case_of (cl_Name contentLine) ["X-JABBER"; "x-jabber"; "X-GTALK"; "x-gtalk"]
  then [mkXJabber (type_param contentLine "type" ["HOME"]) (SV_GetText (cl_Value contentLine))]
  else [].

End FurtherVocabulary.

(** A card of the examples. *)
Definition sample_card : VCard :=
  mkVCard "2.1" "John Doe" ["Doe"] ["John"] [] ["Dr."] []
    ["Johnny"] (mkPhoto "b" "JPEG" "" "AAAA") "1970-01-01"
    [mkAddress ["HOME"] "label" "Box 1" "" "Main Street 1" "Town" "" "12345" "Land"]
    [mkTelephone ["CELL"] "555-0100"] [mkEmail [] "john@example.org"]
    "" "Engineer" ["Example"] [] "" "" [mkXJabber ["WORK"] "john@jabber.example.org"]
    "" "".

(** * Properties *)

(** ** [getValueFromContentLine] *)

Section GetValue.
Context `{DirInfo}.

Lemma getValueFromContentLine_past_end index contentLine :
  Z.of_nat (length (cl_Value contentLine)) <= index ->
  getValueFromContentLine index contentLine = Some ([], "").
Proof.
  intros Hge. unfold getValueFromContentLine.
  destruct (Z.geb_spec (Z.of_nat (length (cl_Value contentLine)) - 1) index) as [Hle|Hlt].
  - lia.
  - reflexivity.
Qed.

Lemma getValueFromContentLine_in_range index contentLine v :
  0 <= index ->
  cl_Value contentLine !! Z.to_nat index = Some v ->
  getValueFromContentLine index contentLine = Some (v, delivered_text contentLine v).
Proof.
  intros Hpos Hv. unfold getValueFromContentLine, delivered_text, index_at.
  apply lookup_lt_Some in Hv as Hlt.
  destruct (Z.geb_spec (Z.of_nat (length (cl_Value contentLine)) - 1) index) as [Hle|Hgt];
    [|lia].
  destruct (Z.ltb_spec index 0) as [Hneg|_]; [lia|].
  rewrite Hv. cbn.
  destruct (String.eqb _ "quoted-printable"); [|reflexivity].
  destruct (qpReadAll (Value_GetText v)) as [bytes [err|]]; reflexivity.
Qed.

Lemma getValueFromContentLine_negative index contentLine :
  index < 0 -> getValueFromContentLine index contentLine = None.
Proof.
  intros Hneg. unfold getValueFromContentLine, index_at.
  destruct (Z.geb_spec (Z.of_nat (length (cl_Value contentLine)) - 1) index) as [_|Hgt];
    [|lia].
  destruct (Z.ltb_spec index 0) as [_|Hpos]; [reflexivity|lia].
Qed.

Lemma getValueFromContentLine_nonneg index contentLine :
  0 <= index ->
  getValueFromContentLine index contentLine = Some (component_at contentLine index).
Proof.
  intros Hpos. unfold component_at.
  destruct (cl_Value contentLine !! Z.to_nat index) as [v|] eqn:Hv.
  - by apply getValueFromContentLine_in_range.
  - apply getValueFromContentLine_past_end.
    apply lookup_ge_None in Hv. lia.
Qed.

(** C8, as amended. For every content line and every index that is not
    negative, [getValueFromContentLine] returns without a fault: for an
    index greater than or equal to the number of components it returns
    [(nil, "")], and for an index in range its first result is the
    component at that index. *)
Theorem getValueFromContentLine_total_nonneg index contentLine :
  0 <= index ->
  is_Some (getValueFromContentLine index contentLine)
  /\ (Z.of_nat (length (cl_Value contentLine)) <= index ->
      getValueFromContentLine index contentLine = Some ([], ""))
  /\ (forall v, cl_Value contentLine !! Z.to_nat index = Some v ->
      exists text, getValueFromContentLine index contentLine = Some (v, text)).
Proof.
  intros Hpos. split; [|split].
  - rewrite getValueFromContentLine_nonneg by done. by eexists.
  - apply getValueFromContentLine_past_end.
  - intros v Hv. eexists. by apply getValueFromContentLine_in_range.
Qed.

End GetValue.

Lemma getValueFromContentLine_total_nonneg_witness :
  0 <= 1
  /\ is_Some (@getValueFromContentLine sampleDirInfo 1
               (mkContentLine "" "N" ∅ [["Doe"]; ["John"]])).
Proof.
  split; [lia|].
  apply (@getValueFromContentLine_total_nonneg sampleDirInfo 1
           (mkContentLine "" "N" ∅ [["Doe"]; ["John"]])).
  lia.
Defined.

(** C8, as stated, fails: the index is a Go [int], and at index [-1] the
    guard [maxIndex >= index] holds, so the function indexes the value
    out of range and panics instead of returning. *)
Lemma getValueFromContentLine_negative_index_faults :
  @getValueFromContentLine sampleDirInfo (-1) (mkContentLine "" "N" ∅ [["Doe"]; ["John"]])
  = None
  /\ ~ (forall index contentLine,
          is_Some (@getValueFromContentLine sampleDirInfo index contentLine)).
Proof.
  split; [reflexivity|].
  intros Htotal.
  destruct (Htotal (-1) (mkContentLine "" "N" ∅ [["Doe"]; ["John"]])) as [r Hr].
  discriminate Hr.
Qed.

(** ** [ReadFrom] *)

Ltac exec_unfold :=
  unfold mbind, mret, Exec_bind, Exec_ret, assign, lift, logPrintf.

(** Case analysis on a name [n] against every string literal it is
    compared with in the goal; [tac] closes the case of each literal. *)
Ltac by_label n tac :=
  repeat match goal with
    | |- context [String.eqb n ?lit] =>
        destruct (String.eqb_spec n lit) as [->|?]; [cbn; tac|]
    end.

(** The cases of the [switch] are kept folded during simplification. *)
#[local] Arguments read_N : simpl never.
#[local] Arguments read_ADR : simpl never.
#[local] Arguments read_PHOTO : simpl never.
#[local] Arguments read_TEL : simpl never.
#[local] Arguments read_EMAIL : simpl never.
#[local] Arguments read_XJABBER : simpl never.
#[local] Arguments N_diagnostics : simpl never.
#[local] Arguments ADR_diagnostics : simpl never.

Section ReadFromFacts.
Context `{DirInfo}.

(** [ReadFrom] is the loop of the source around [ReadContentLine]. *)
Lemma ReadFrom_unfold di :
  ReadFrom di =
  let '(contentLine, di') := ReadContentLine di in
  match contentLine with
  | None => mret di'
  | Some contentLine =>
      flow ← switch_Name contentLine;
      match flow with
      | Return => mret di'
      | Next => ReadFrom di'
      end
  end.
Proof. destruct di; reflexivity. Qed.

Lemma read_N_eq contentLine st :
  read_N contentLine st =
  if Z.of_nat (length (cl_Value contentLine)) >? 0 then
    Some (tt, mkState (N_assigned contentLine (card st))
                      (logged st ++ N_diagnostics (Z.of_nat (length (cl_Value contentLine)))))
  else Some (tt, mkState (card st) (logged st ++ [N_no_field])).
Proof.
  unfold read_N. destruct (_ >? 0); [|reflexivity].
  exec_unfold.
  rewrite !getValueFromContentLine_nonneg by (vm_compute; discriminate).
  unfold N_assigned, N_diagnostics. cbn [card logged].
  destruct (_ >? nameSize); [reflexivity|].
  destruct (_ <? nameSize); [reflexivity|].
  by rewrite app_nil_r; destruct st.
Qed.

Lemma read_ADR_eq contentLine st :
  read_ADR contentLine st =
  if Z.of_nat (length (cl_Value contentLine)) >? 0 then
    Some (tt, mkState (set_Addresses (Addresses (card st) ++ [ADR_address contentLine]) (card st))
                      (logged st ++ ADR_diagnostics (Z.of_nat (length (cl_Value contentLine)))))
  else Some (tt, mkState (card st) (logged st ++ [ADR_no_field])).
Proof.
  unfold read_ADR. destruct (_ >? 0); [|reflexivity].
  exec_unfold.
  rewrite !getValueFromContentLine_nonneg by (vm_compute; discriminate).
  unfold ADR_address, ADR_diagnostics. cbn [card logged].
  destruct (_ >? addressSize); [reflexivity|].
  destruct (_ <? addressSize); [reflexivity|].
  by rewrite app_nil_r.
Qed.

Ltac run_branch :=
  exec_unfold; rewrite ?read_N_eq, ?read_ADR_eq; unfold read_PHOTO, read_TEL, read_EMAIL, read_XJABBER;
  exec_unfold; cbn [card logged];
  repeat match goal with
    | |- context [if ?b then _ else _] => destruct b
    end;
  rewrite ?app_nil_r; eexists; reflexivity.

(** One pass through the [switch] does not panic, returns exactly on an
    [END] line with value [VCARD], and logs [diagnostics_of]. *)
Lemma switch_Name_shape contentLine st :
  exists card',
    switch_Name contentLine st =
    Some (if is_END_VCARD contentLine then Return else Next,
          mkState card' (logged st ++ diagnostics_of contentLine)).
Proof.
  destruct st as [vcard lg].
  unfold switch_Name, is_END_VCARD, diagnostics_of, case_labels, case_of.
  cbv zeta. cbn [existsb].
  remember (cl_Name contentLine) as n eqn:Hn.
  by_label n run_branch.
  cbn. run_branch.
Qed.

Lemma ReadFrom_cons contentLine di st :
  exists card',
    ReadFrom (contentLine :: di) st =
    if is_END_VCARD contentLine
    then Some (di, mkState card' (logged st ++ diagnostics_of contentLine))
    else ReadFrom di (mkState card' (logged st ++ diagnostics_of contentLine)).
Proof.
  destruct (switch_Name_shape contentLine st) as [card' Hs].
  exists card'. cbn [ReadFrom]. unfold mbind, Exec_bind. rewrite Hs.
  by destruct (is_END_VCARD contentLine).
Qed.

(** An [END] line whose value is not [VCARD] changes nothing and the
    read goes on. *)
Lemma ReadFrom_END_other contentLine di st :
  case_of (cl_Name contentLine) ["END"; "end"] = true ->
  SV_GetText (cl_Value contentLine) <> "VCARD" ->
  ReadFrom (contentLine :: di) st = ReadFrom di st.
Proof.
  intros Hname Hvalue. cbn [ReadFrom]. unfold mbind, Exec_bind, switch_Name.
  cbv zeta.
  assert (case_of (cl_Name contentLine) ["VERSION"; "version"] = false) as ->.
  { unfold case_of in *. cbn [existsb] in *.
    destruct (String.eqb_spec (cl_Name contentLine) "END") as [->|_]; [reflexivity|].
    destruct (String.eqb_spec (cl_Name contentLine) "end") as [->|_]; [reflexivity|].
    discriminate Hname. }
  rewrite Hname.
  destruct (String.eqb_spec (SV_GetText (cl_Value contentLine)) "VCARD"); [done|].
  reflexivity.
Qed.

(** C1. [ReadFrom] returns for every stream and every starting state,
    having taken the content lines one at a time from the front of the
    reader: either no line of the stream is an [END] line (name [END] or
    [end]) with value [VCARD], and the reader is left exhausted; or the
    reader is left just after the first such line. An [END] line whose
    value is not [VCARD] does not end the read. *)
Theorem ReadFrom_stops_at_END_VCARD di st :
  (exists rest st',
     ReadFrom di st = Some (rest, st')
     /\ ((Forall (λ contentLine, is_END_VCARD contentLine = false) di /\ rest = [])
         \/ (exists before terminator,
               di = (before ++ terminator :: rest)%list
               /\ Forall (λ contentLine, is_END_VCARD contentLine = false) before
               /\ is_END_VCARD terminator = true)))
  /\ (forall contentLine,
        case_of (cl_Name contentLine) ["END"; "end"] = true ->
        SV_GetText (cl_Value contentLine) <> "VCARD" ->
        ReadFrom (contentLine :: di) st = ReadFrom di st).
Proof.
  split; [|intros; by apply ReadFrom_END_other].
  revert st. induction di as [|contentLine di IH]; intros st.
  - exists [], st. split; [reflexivity|]. left. by split.
  - destruct (ReadFrom_cons contentLine di st) as [card' Hcons].
    rewrite Hcons. destruct (is_END_VCARD contentLine) eqn:Hend.
    + eexists _, _. split; [reflexivity|]. right.
      exists [], contentLine. by repeat split.
    + destruct (IH (mkState card' (logged st ++ diagnostics_of contentLine)))
        as (rest & st' & Hrun & Hshape).
      exists rest, st'. split; [exact Hrun|].
      destruct Hshape as [[Hnone ->]|(before & terminator & -> & Hbefore & Hterm)].
      * left. split; [|reflexivity]. by constructor.
      * right. exists (contentLine :: before), terminator.
        split; [reflexivity|]. split; [by constructor|exact Hterm].
Qed.

End ReadFromFacts.

Lemma ReadFrom_stops_at_END_VCARD_witness :
  case_of (cl_Name (sample_line "END" "VCALENDAR")) ["END"; "end"] = true
  /\ @SV_GetText sampleDirInfo (cl_Value (sample_line "END" "VCALENDAR")) <> "VCARD"
  /\ @ReadFrom sampleDirInfo
       (sample_line "END" "VCALENDAR" :: [sample_line "FN" "John Doe"; sample_line "END" "VCARD"])
       (mkState zeroVCard [])
     = @ReadFrom sampleDirInfo [sample_line "FN" "John Doe"; sample_line "END" "VCARD"]
         (mkState zeroVCard []).
Proof.
  split; [reflexivity|]. split; [discriminate|].
  apply (proj2 (@ReadFrom_stops_at_END_VCARD sampleDirInfo
                  [sample_line "FN" "John Doe"; sample_line "END" "VCARD"]
                  (mkState zeroVCard []))).
  - reflexivity.
  - discriminate.
Defined.

(** ** The cases of the [switch] *)

(** Decides which branch of the [switch] a goal
    [case_of name labels = b -> switch_Name contentLine = branch] is in,
    by comparing [name] with each label in turn. *)
Ltac switch_to name :=
  let n := fresh "n" in
  let Hn := fresh "Hn" in
  unfold switch_Name, case_labels, case_of; cbv zeta; cbn [existsb];
  remember name as n eqn:Hn;
  by_label n ltac:(first [discriminate | intros _; reflexivity]);
  cbn; first [discriminate | intros _; reflexivity].

Section SwitchCases.
Context `{DirInfo}.
Implicit Types (contentLine : ContentLine) (st : State) (di : DirectoryInfoReader).

Lemma switch_Name_FN contentLine :
  case_of (cl_Name contentLine) ["FN"; "fn"] = true ->
  switch_Name contentLine =
  (assign (set_FormattedName (SV_GetText (cl_Value contentLine)));; mret Next).
Proof. switch_to (cl_Name contentLine). Qed.

Lemma switch_Name_N contentLine :
  case_of (cl_Name contentLine) ["N"; "n"] = true ->
  switch_Name contentLine = (read_N contentLine;; mret Next).
Proof. switch_to (cl_Name contentLine). Qed.

Lemma switch_Name_ADR contentLine :
  case_of (cl_Name contentLine) ["ADR"; "adr"] = true ->
  switch_Name contentLine = (read_ADR contentLine;; mret Next).
Proof. switch_to (cl_Name contentLine). Qed.

Lemma switch_Name_TEL contentLine :
  case_of (cl_Name contentLine) ["TEL"; "tel"] = true ->
  switch_Name contentLine = (read_TEL contentLine;; mret Next).
Proof. switch_to (cl_Name contentLine). Qed.

Lemma switch_Name_EMAIL contentLine :
  case_of (cl_Name contentLine) ["EMAIL"; "email"] = true ->
  switch_Name contentLine = (read_EMAIL contentLine;; mret Next).
Proof. switch_to (cl_Name contentLine). Qed.

Lemma switch_Name_XJABBER contentLine :
  case_of (cl_Name contentLine) ["X-JABBER"; "x-jabber"; "X-GTALK"; "x-gtalk"] = true ->
  switch_Name contentLine = (read_XJABBER contentLine;; mret Next).
Proof. switch_to (cl_Name contentLine). Qed.

Lemma switch_Name_default contentLine :
  case_of (cl_Name contentLine) case_labels = false ->
  switch_Name contentLine =
  (logPrintf (Not_read (cl_Group contentLine) (cl_Name contentLine) (cl_Value contentLine));;
   mret Next).
Proof.
  switch_to (cl_Name contentLine).
Qed.

(** A line that does not end the read is followed by the rest of the
    stream. *)
Lemma ReadFrom_Next contentLine di st st' :
  switch_Name contentLine st = Some (Next, st') ->
  ReadFrom (contentLine :: di) st = ReadFrom di st'.
Proof. intros Hs. cbn [ReadFrom]. unfold mbind, Exec_bind. by rewrite Hs. Qed.

Lemma nonempty_length (sv : StructuredValue) :
  sv <> [] -> (Z.of_nat (length sv) >? 0) = true.
Proof. destruct sv; [done|]. intros _. apply Z.gtb_lt. cbn [length]. lia. Qed.

Lemma component_at_fst contentLine index :
  (component_at contentLine index).1 = default [] (cl_Value contentLine !! Z.to_nat index).
Proof. unfold component_at. by destruct (_ !! _). Qed.

(** C6. For every [N] content line (name [N] or [n]) with at least one
    component, [ReadFrom] assigns component 0 to [FamilyNames], 1 to
    [GivenNames], 2 to [AdditionalNames], 3 to [HonorificNames] and 4 to
    [HonorificSuffixes], a component past the end of the value giving the
    empty (nil) list, and goes on with the rest of the stream. *)
Theorem ReadFrom_N_components contentLine di st :
  case_of (cl_Name contentLine) ["N"; "n"] = true ->
  cl_Value contentLine <> [] ->
  exists st',
    ReadFrom (contentLine :: di) st = ReadFrom di st'
    /\ FamilyNames (card st') = default [] (cl_Value contentLine !! 0%nat)
    /\ GivenNames (card st') = default [] (cl_Value contentLine !! 1%nat)
    /\ AdditionalNames (card st') = default [] (cl_Value contentLine !! 2%nat)
    /\ HonorificNames (card st') = default [] (cl_Value contentLine !! 3%nat)
    /\ HonorificSuffixes (card st') = default [] (cl_Value contentLine !! 4%nat).
Proof.
  intros Hname Hlen.
  eexists. split.
  - apply ReadFrom_Next. rewrite (switch_Name_N _ Hname).
    exec_unfold. rewrite read_N_eq, (nonempty_length _ Hlen). reflexivity.
  - cbn [card]. unfold N_assigned. rewrite !component_at_fst.
    by destruct (card st).
Qed.

End SwitchCases.

Lemma ReadFrom_N_components_witness :
  case_of (cl_Name (mkContentLine "" "N" ∅ [["Doe"]; ["John"]; ["Q"; "R"]])) ["N"; "n"] = true
  /\ cl_Value (mkContentLine "" "N" ∅ [["Doe"]; ["John"]; ["Q"; "R"]]) <> []
  /\ exists st',
       @ReadFrom sampleDirInfo [mkContentLine "" "N" ∅ [["Doe"]; ["John"]; ["Q"; "R"]]]
         (mkState zeroVCard [])
       = @ReadFrom sampleDirInfo [] st'
       /\ FamilyNames (card st') = ["Doe"]
       /\ GivenNames (card st') = ["John"]
       /\ AdditionalNames (card st') = ["Q"; "R"]
       /\ HonorificNames (card st') = []
       /\ HonorificSuffixes (card st') = [].
Proof.
  split; [reflexivity|]. split; [discriminate|].
  apply (@ReadFrom_N_components sampleDirInfo
           (mkContentLine "" "N" ∅ [["Doe"]; ["John"]; ["Q"; "R"]]) []
           (mkState zeroVCard [])).
  - reflexivity.
  - discriminate.
Defined.

(** ** Type parameters and their defaults *)

Section TypeDefaults.
Context `{DirInfo}.
Implicit Types (contentLine : ContentLine) (st : State) (di : DirectoryInfoReader).

Lemma Addresses_set_Addresses x v : Addresses (set_Addresses x v) = x.
Proof. by destruct v. Qed.

Lemma Telephones_set_Telephones x v : Telephones (set_Telephones x v) = x.
Proof. by destruct v. Qed.

Lemma Emails_set_Emails x v : Emails (set_Emails x v) = x.
Proof. by destruct v. Qed.

Lemma XJabbers_set_XJabbers x v : XJabbers (set_XJabbers x v) = x.
Proof. by destruct v. Qed.

(** An [ADR] line with at least one component appends [ADR_address]. *)
Lemma ReadFrom_ADR contentLine di st :
  case_of (cl_Name contentLine) ["ADR"; "adr"] = true ->
  cl_Value contentLine <> [] ->
  exists st',
    ReadFrom (contentLine :: di) st = ReadFrom di st'
    /\ Addresses (card st') = (Addresses (card st) ++ [ADR_address contentLine])%list.
Proof.
  intros Hname Hlen. eexists. split.
  - apply ReadFrom_Next. rewrite (switch_Name_ADR _ Hname).
    exec_unfold. rewrite read_ADR_eq, (nonempty_length _ Hlen). reflexivity.
  - cbn [card]. apply Addresses_set_Addresses.
Qed.

(** C10. When the content line has no parameter under the key that is
    looked up, [ReadFrom] stores a fixed default type list: [Intl],
    [Postal], [Parcel], [Work] for an [ADR] line (key [TYPE]; the line
    has at least one component, otherwise no address is stored at all),
    [voice] for a [TEL] line, [HOME] for an [EMAIL] and for an [X-JABBER]
    or [X-GTALK] line (key [type]); when the parameter is there, its
    value list is stored as the type, unchanged. *)
Theorem ReadFrom_type_or_default contentLine di st :
  (case_of (cl_Name contentLine) ["ADR"; "adr"] = true ->
   cl_Value contentLine <> [] ->
   exists address st',
     ReadFrom (contentLine :: di) st = ReadFrom di st'
     /\ Addresses (card st') = (Addresses (card st) ++ [address])%list
     /\ adr_Type address =
        match cl_Params contentLine !! "TYPE" with
        | Some param => param
        | None => ["Intl"; "Postal"; "Parcel"; "Work"]
        end)
  /\ (case_of (cl_Name contentLine) ["TEL"; "tel"] = true ->
      exists tel st',
        ReadFrom (contentLine :: di) st = ReadFrom di st'
        /\ Telephones (card st') = (Telephones (card st) ++ [tel])%list
        /\ tel_Type tel =
           match cl_Params contentLine !! "type" with
           | Some param => param
           | None => ["voice"]
           end)
  /\ (case_of (cl_Name contentLine) ["EMAIL"; "email"] = true ->
      exists email st',
        ReadFrom (contentLine :: di) st = ReadFrom di st'
        /\ Emails (card st') = (Emails (card st) ++ [email])%list
        /\ email_Type email =
           match cl_Params contentLine !! "type" with
           | Some param => param
           | None => ["HOME"]
           end)
  /\ (case_of (cl_Name contentLine) ["X-JABBER"; "x-jabber"; "X-GTALK"; "x-gtalk"] = true ->
      exists jabber st',
        ReadFrom (contentLine :: di) st = ReadFrom di st'
        /\ XJabbers (card st') = (XJabbers (card st) ++ [jabber])%list
        /\ jab_Type jabber =
           match cl_Params contentLine !! "type" with
           | Some param => param
           | None => ["HOME"]
           end).
Proof.
  repeat split.
  - intros Hname Hlen.
    destruct (ReadFrom_ADR contentLine di st Hname Hlen) as (st' & Hrun & Hadr).
    by exists (ADR_address contentLine), st'.
  - intros Hname. eexists _, _. split; [|split].
    + apply ReadFrom_Next. rewrite (switch_Name_TEL _ Hname). reflexivity.
    + cbn [card]. apply Telephones_set_Telephones.
    + reflexivity.
  - intros Hname. eexists _, _. split; [|split].
    + apply ReadFrom_Next. rewrite (switch_Name_EMAIL _ Hname). reflexivity.
    + cbn [card]. apply Emails_set_Emails.
    + reflexivity.
  - intros Hname. eexists _, _. split; [|split].
    + apply ReadFrom_Next. rewrite (switch_Name_XJABBER _ Hname). reflexivity.
    + cbn [card]. apply XJabbers_set_XJabbers.
    + reflexivity.
Qed.

End TypeDefaults.

Lemma ReadFrom_type_or_default_witness :
  (case_of (cl_Name (sample_line "TEL" "555-0100")) ["TEL"; "tel"] = true
   /\ exists tel st',
        @ReadFrom sampleDirInfo [sample_line "TEL" "555-0100"] (mkState zeroVCard [])
        = @ReadFrom sampleDirInfo [] st'
        /\ Telephones (card st') = [tel]
        /\ tel_Type tel = ["voice"])
  /\ (case_of (cl_Name (mkContentLine "" "adr" {["TYPE" := ["HOME"]]} [["Box 1"]]))
        ["ADR"; "adr"] = true
      /\ cl_Value (mkContentLine "" "adr" {["TYPE" := ["HOME"]]} [["Box 1"]]) <> []
      /\ exists address st',
           @ReadFrom sampleDirInfo [mkContentLine "" "adr" {["TYPE" := ["HOME"]]} [["Box 1"]]]
             (mkState zeroVCard [])
           = @ReadFrom sampleDirInfo [] st'
           /\ Addresses (card st') = [address]
           /\ adr_Type address = ["HOME"]).
Proof.
  split.
  - split; [reflexivity|].
    apply (proj1 (proj2 (@ReadFrom_type_or_default sampleDirInfo
                           (sample_line "TEL" "555-0100") [] (mkState zeroVCard [])))).
    reflexivity.
  - split; [reflexivity|]. split; [discriminate|].
    destruct (proj1 (@ReadFrom_type_or_default sampleDirInfo
                       (mkContentLine "" "adr" {["TYPE" := ["HOME"]]} [["Box 1"]]) []
                       (mkState zeroVCard [])))
      as (address & st' & Hrun & Hadr & Htype).
    + reflexivity.
    + discriminate.
    + exists address, st'. split; [exact Hrun|]. split; [exact Hadr|].
      rewrite Htype. vm_compute. reflexivity.
Defined.

(** ** Quoted-printable values *)

Section QuotedPrintable.
Context `{DirInfo}.
Implicit Types (contentLine : ContentLine) (st : State) (di : DirectoryInfoReader).

Lemma delivered_text_failure contentLine v :
  (qpReadAll (Value_GetText v)).2 <> None ->
  delivered_text contentLine v = Value_GetText v.
Proof.
  intros Herr. unfold delivered_text.
  destruct (String.eqb _ _); [|reflexivity].
  by destruct ((qpReadAll (Value_GetText v)).2).
Qed.

Lemma address_field_ADR_address contentLine index :
  0 <= index <= countryName ->
  address_field index (ADR_address contentLine) = (component_at contentLine index).2.
Proof.
  unfold countryName. intros Hrange.
  assert (index = 0 \/ index = 1 \/ index = 2 \/ index = 3 \/ index = 4
          \/ index = 5 \/ index = 6) as Hcases by lia.
  destruct Hcases as [->|[->|[->|[->|[->|[->| ->]]]]]]; reflexivity.
Qed.

(** C3. When the quoted-printable decoding of a component's text fails,
    [getValueFromContentLine] still returns, with the component and its
    raw, undecoded text; and [ReadFrom], on an [ADR] line with such a
    component, stores the raw text in the field of that component and
    goes on with the rest of the stream. *)
Theorem decode_failure_keeps_raw_text contentLine index v :
  0 <= index ->
  cl_Value contentLine !! Z.to_nat index = Some v ->
  (qpReadAll (Value_GetText v)).2 <> None ->
  getValueFromContentLine index contentLine = Some (v, Value_GetText v)
  /\ (forall di st,
        case_of (cl_Name contentLine) ["ADR"; "adr"] = true ->
        index <= countryName ->
        exists address st',
          ReadFrom (contentLine :: di) st = ReadFrom di st'
          /\ Addresses (card st') = (Addresses (card st) ++ [address])%list
          /\ address_field index address = Value_GetText v).
Proof.
  intros Hpos Hv Herr. split.
  - rewrite (getValueFromContentLine_in_range _ _ v) by done.
    by rewrite delivered_text_failure.
  - intros di st Hname Hmax.
    assert (cl_Value contentLine <> []) as Hlen.
    { intros Hnil. rewrite Hnil in Hv. by rewrite lookup_nil in Hv. }
    destruct (ReadFrom_ADR contentLine di st Hname Hlen) as (st' & Hrun & Hadr).
    exists (ADR_address contentLine), st'. split; [exact Hrun|]. split; [exact Hadr|].
    rewrite address_field_ADR_address by lia.
    unfold component_at. rewrite Hv. cbn.
    by apply delivered_text_failure.
Qed.

End QuotedPrintable.

Lemma decode_failure_keeps_raw_text_witness :
  0 <= 1
  /\ cl_Value (mkContentLine "" "ADR" sample_qp_params [["=41"]; ["=ZZ"]]) !! Z.to_nat 1
     = Some ["=ZZ"]
  /\ (@qpReadAll sampleDirInfo (@Value_GetText sampleDirInfo ["=ZZ"])).2 <> None
  /\ @getValueFromContentLine sampleDirInfo 1
       (mkContentLine "" "ADR" sample_qp_params [["=41"]; ["=ZZ"]])
     = Some (["=ZZ"], "=ZZ").
Proof.
  split; [lia|]. split; [reflexivity|]. split; [discriminate|].
  apply (@decode_failure_keeps_raw_text sampleDirInfo
           (mkContentLine "" "ADR" sample_qp_params [["=41"]; ["=ZZ"]]) 1 ["=ZZ"]).
  - lia.
  - reflexivity.
  - discriminate.
Defined.

(** C2, the code at a failing input. Three lines declare
    [ENCODING=QUOTED-PRINTABLE]; their raw texts decode to [John Doe],
    [Doe] and [A]. [ReadFrom] stores the [FN] text and the [N] component
    raw; only the [ADR] component, read through the text result of
    [getValueFromContentLine], is stored decoded. *)
Theorem ReadFrom_FN_and_N_not_decoded :
  qp_decode "John=20Doe" = Some "John Doe"
  /\ qp_decode "=44=6F=65" = Some "Doe"
  /\ qp_decode "=41" = Some "A"
  /\ exists st',
       @ReadFrom sampleDirInfo
         [mkContentLine "" "FN" sample_qp_params [["John=20Doe"]];
          mkContentLine "" "N" sample_qp_params [["=44=6F=65"]];
          mkContentLine "" "ADR" sample_qp_params [["=41"]]]
         (mkState zeroVCard [])
       = Some ([], st')
       /\ FormattedName (card st') = "John=20Doe"
       /\ FamilyNames (card st') = ["=44=6F=65"]
       /\ adr_PostOfficeBox <$> Addresses (card st') = ["A"].
Proof.
  split; [reflexivity|]. split; [reflexivity|]. split; [reflexivity|].
  eexists. split; [vm_compute; reflexivity|].
  by repeat split.
Qed.

(** C4, the code at a failing input. A [TEL] line whose type parameter
    is stored under [TYPE] gets the default type [voice], and an [ADR]
    line whose type parameter is stored under [type] gets the default
    address types: the map is read under one exact key. In particular an
    address written by [Address.WriteTo], which stores the type under
    [type], is read back by [ReadFrom], which looks under [TYPE], with
    its type replaced by the default. *)
Theorem ReadFrom_type_key_is_case_sensitive :
  (exists st',
     @ReadFrom sampleDirInfo [mkContentLine "" "TEL" {["TYPE" := ["WORK"]]} [["555-0100"]]]
       (mkState zeroVCard [])
     = Some ([], st')
     /\ Telephones (card st') = [mkTelephone ["voice"] "555-0100"])
  /\ (exists st',
        @ReadFrom sampleDirInfo [mkContentLine "" "ADR" {["type" := ["HOME"]]} [["Box 1"]]]
          (mkState zeroVCard [])
        = Some ([], st')
        /\ adr_Type <$> Addresses (card st') = [["Intl"; "Postal"; "Parcel"; "Work"]])
  /\ (exists st',
        @ReadFrom sampleDirInfo
          (Address_WriteTo (mkAddress ["HOME"] "" "Box 1" "" "" "" "" "" "") [])
          (mkState zeroVCard [])
        = Some ([], st')
        /\ adr_Type <$> Addresses (card st') = [["Intl"; "Postal"; "Parcel"; "Work"]]).
Proof.
  split; [|split]; (eexists; split; [vm_compute; reflexivity|reflexivity]).
Qed.

(** ** Property names *)

Section PropertyNames.
Context `{DirInfo}.
Implicit Types (contentLine : ContentLine) (st : State) (di : DirectoryInfoReader).

(** C5, as amended. [ReadFrom] compares the property name byte for byte
    with the labels of its [switch], which spell each property in capitals
    and in small letters ([X-ABShowAs] only as written here). A line named
    [FN] or [fn] sets [FormattedName] to the text of its value and logs
    nothing; a line whose name is none of the labels is routed to the
    unrecognized-name branch: it is logged as not read and the card is
    left as it was. *)
Theorem ReadFrom_matches_labels_exactly contentLine di st :
  (case_of (cl_Name contentLine) ["FN"; "fn"] = true ->
   ReadFrom (contentLine :: di) st =
   ReadFrom di (mkState (set_FormattedName (SV_GetText (cl_Value contentLine)) (card st))
                        (logged st)))
  /\ (case_of (cl_Name contentLine) case_labels = false ->
      ReadFrom (contentLine :: di) st =
      ReadFrom di (mkState (card st)
                     (logged st ++ [Not_read (cl_Group contentLine) (cl_Name contentLine)
                                             (cl_Value contentLine)]))).
Proof.
  split; intros Hname; apply ReadFrom_Next.
  - by rewrite (switch_Name_FN _ Hname).
  - by rewrite (switch_Name_default _ Hname).
Qed.

End PropertyNames.

Lemma ReadFrom_matches_labels_exactly_witness :
  (case_of (cl_Name (sample_line "fn" "John Doe")) ["FN"; "fn"] = true
   /\ @ReadFrom sampleDirInfo [sample_line "fn" "John Doe"] (mkState zeroVCard [])
      = Some ([], mkState (set_FormattedName "John Doe" zeroVCard) []))
  /\ (case_of (cl_Name (sample_line "fN" "John Doe")) case_labels = false
      /\ @ReadFrom sampleDirInfo [sample_line "fN" "John Doe"] (mkState zeroVCard [])
         = Some ([], mkState zeroVCard [Not_read "" "fN" [["John Doe"]]])).
Proof.
  split.
  - split; [reflexivity|].
    apply (proj1 (@ReadFrom_matches_labels_exactly sampleDirInfo
                    (sample_line "fn" "John Doe") [] (mkState zeroVCard []))).
    reflexivity.
  - split; [reflexivity|].
    apply (proj2 (@ReadFrom_matches_labels_exactly sampleDirInfo
                    (sample_line "fN" "John Doe") [] (mkState zeroVCard []))).
    reflexivity.
Defined.

(** C5, as stated, fails: [Fn] and [FN] are equal up to case, but the
    line named [Fn] leaves [FormattedName] empty and is logged as not
    read, while the line named [FN] sets [FormattedName]. *)
Lemma ReadFrom_Fn_is_not_FN :
  ToLower "Fn" = ToLower "FN"
  /\ @ReadFrom sampleDirInfo [sample_line "Fn" "John Doe"] (mkState zeroVCard [])
     = Some ([], mkState zeroVCard [Not_read "" "Fn" [["John Doe"]]])
  /\ @ReadFrom sampleDirInfo [sample_line "FN" "John Doe"] (mkState zeroVCard [])
     = Some ([], mkState (set_FormattedName "John Doe" zeroVCard) [])
  /\ FormattedName zeroVCard <> FormattedName (set_FormattedName "John Doe" zeroVCard).
Proof. by repeat split. Qed.

(** ** Errors and the log *)

(** C7, as amended. A quoted-printable decoding failure inside
    [getValueFromContentLine] is not reported: [ReadFrom] has no error
    result, always returns, and for every stream it leaves the reader at
    the same place and the log with the same entries whatever the
    quoted-printable reader returns, be it bytes or an error. *)
Theorem ReadFrom_log_ignores_decoder (D : DirInfo) qp di st :
  exists rest st1 st2,
    @ReadFrom D di st = Some (rest, st1)
    /\ @ReadFrom (with_decoder D qp) di st = Some (rest, st2)
    /\ logged st1 = logged st2.
Proof.
  enough (forall st1 st2,
             logged st1 = logged st2 ->
             exists rest st1' st2',
               @ReadFrom D di st1 = Some (rest, st1')
               /\ @ReadFrom (with_decoder D qp) di st2 = Some (rest, st2')
               /\ logged st1' = logged st2') as Hblind by (by apply Hblind).
  induction di as [|contentLine di IH]; intros st1 st2 Hlog.
  - by exists [], st1, st2.
  - destruct (@ReadFrom_cons D contentLine di st1) as [card1 H1].
    destruct (@ReadFrom_cons (with_decoder D qp) contentLine di st2) as [card2 H2].
    rewrite H1, H2.
    change (@is_END_VCARD (with_decoder D qp) contentLine)
      with (@is_END_VCARD D contentLine).
    rewrite <- Hlog.
    destruct (@is_END_VCARD D contentLine).
    + by eexists _, _, _.
    + by apply IH.
Qed.

(** C7, as stated, fails: on this [ADR] line the quoted-printable reader
    returns an error for every component, and [ReadFrom] returns with an
    empty log; the error is neither returned nor logged. *)
Lemma ReadFrom_drops_decode_error :
  (@qpReadAll sampleDirInfo "=ZZ").2 = Some "MalformedEscape"
  /\ exists st',
       @ReadFrom sampleDirInfo
         [mkContentLine "" "ADR" sample_qp_params
            [["=ZZ"]; ["=ZZ"]; ["=ZZ"]; ["=ZZ"]; ["=ZZ"]; ["=ZZ"]; ["=ZZ"]]]
         (mkState zeroVCard [])
       = Some ([], st')
       /\ logged st' = []
       /\ adr_PostOfficeBox <$> Addresses (card st') = ["=ZZ"].
Proof.
  split; [reflexivity|].
  eexists. split; [vm_compute; reflexivity|]. by split.
Qed.

(** ** [WriteTo] *)

Lemma extends_refl di : extends di di.
Proof. exists []. by rewrite app_nil_r. Qed.

Lemma extends_line di di' line :
  body_line line -> extends di di' -> extends di (WriteContentLine line di').
Proof.
  intros Hline (out & -> & Hout). exists (out ++ [line])%list. split.
  - unfold WriteContentLine. by rewrite app_assoc.
  - apply Forall_app. split; [exact Hout|]. by constructor.
Qed.

Lemma extends_write_if di di' c line :
  body_line line -> extends di di' -> extends di (write_if c line di').
Proof.
  intros Hline Hext. destruct c; cbn; [by apply extends_line|exact Hext].
Qed.

Lemma extends_Photo di di' photo :
  extends di di' -> extends di (Photo_WriteTo photo di').
Proof.
  intros Hext. unfold Photo_WriteTo.
  destruct (Nat.eqb _ 0); [exact Hext|]. by apply extends_line.
Qed.

Lemma extends_range {A} (w : A -> DirectoryInfoWriter -> DirectoryInfoWriter) xs di :
  (forall x di', extends di di' -> extends di (w x di')) ->
  forall di', extends di di' -> extends di (range_WriteTo w xs di').
Proof.
  intros Hw. induction xs as [|x xs IH]; intros di' Hext; [exact Hext|].
  cbn. apply IH, Hw, Hext.
Qed.

Lemma VCard_WriteTo_ignores_Version version vcard di :
  VCard_WriteTo (set_Version version vcard) di = VCard_WriteTo vcard di.
Proof. by destruct vcard. Qed.

(** C9. For every [VCard] value, the content lines that [WriteTo] hands
    to the writer start with [BEGIN:VCARD] followed by [VERSION:3.0] and
    end with [END:VCARD], no line in between being named [BEGIN],
    [VERSION] or [END]; and what is written does not depend on the
    [Version] field. *)
Theorem WriteTo_BEGIN_VERSION_END vcard di :
  (exists body,
     VCard_WriteTo vcard di =
     (di ++ mkContentLine "" "BEGIN" ∅ [["VCARD"]]
         :: mkContentLine "" "VERSION" ∅ [["3.0"]]
         :: body ++ [mkContentLine "" "END" ∅ [["VCARD"]]])%list
     /\ Forall body_line body)
  /\ (forall version, VCard_WriteTo (set_Version version vcard) di = VCard_WriteTo vcard di).
Proof.
  split; [|intros; apply VCard_WriteTo_ignores_Version].
  unfold VCard_WriteTo. cbv zeta.
  set (di2 := WriteContentLine _ (WriteContentLine _ di)).
  match goal with
  | |- exists body, WriteContentLine _ ?written = _ /\ _ =>
      assert (extends di2 written) as (body & -> & Hlines)
  end.
  { repeat first
      [ apply extends_refl
      | apply extends_write_if; [reflexivity|]
      | apply extends_line; [reflexivity|]
      | apply extends_Photo
      | apply extends_range;
        [intros ? ? ?; apply extends_line; [reflexivity|assumption]|] ]. }
  exists body. split; [|exact Hlines].
  unfold di2, WriteContentLine. by rewrite <- !app_assoc.
Qed.

(** * Further properties *)

(** ** What the writers append *)

Lemma write_if_lines c line di : write_if c line di = (di ++ lines_if c line)%list.
Proof. destruct c; cbn; [reflexivity|by rewrite app_nil_r]. Qed.

Lemma Photo_WriteTo_lines photo di :
  Photo_WriteTo photo di = (di ++ Photo_WriteTo photo [])%list.
Proof.
  unfold Photo_WriteTo. destruct (Nat.eqb _ 0); [by rewrite app_nil_r|reflexivity].
Qed.

Lemma range_WriteTo_lines {A} (w : A -> DirectoryInfoWriter -> DirectoryInfoWriter) xs :
  (forall x di, w x di = (di ++ w x [])%list) ->
  forall di, range_WriteTo w xs di = (di ++ flat_map (λ x, w x []) xs)%list.
Proof.
  intros Hw. induction xs as [|x xs IH]; intros di; cbn.
  - by rewrite app_nil_r.
  - fold (range_WriteTo w xs (w x di)). by rewrite IH, Hw, <- app_assoc.
Qed.

(** The lines of one card, piece by piece. *)
Lemma VCard_WriteTo_lines vcard di :
  VCard_WriteTo vcard di =
  (di ++ [mkContentLine "" "BEGIN" ∅ [["VCARD"]];
          mkContentLine "" "VERSION" ∅ [["3.0"]];
          mkContentLine "" "FN" ∅ [[FormattedName vcard]];
          mkContentLine "" "N" ∅
            [FamilyNames vcard; GivenNames vcard; AdditionalNames vcard;
             HonorificNames vcard; HonorificSuffixes vcard]]
      ++ lines_if (nonempty_slice (NickNames vcard))
           (mkContentLine "" "NICKNAME" ∅ [NickNames vcard])
      ++ Photo_WriteTo (vc_Photo vcard) []
      ++ lines_if (nonempty_string (Birthday vcard))
           (mkContentLine "" "BDAY" ∅ [[Birthday vcard]])
      ++ flat_map (λ x, Address_WriteTo x []) (Addresses vcard)
      ++ flat_map (λ x, Telephone_WriteTo x []) (Telephones vcard)
      ++ flat_map (λ x, Email_WriteTo x []) (Emails vcard)
      ++ lines_if (nonempty_string (Title vcard))
           (mkContentLine "" "TITLE" ∅ [[Title vcard]])
      ++ lines_if (nonempty_string (Role vcard))
           (mkContentLine "" "ROLE" ∅ [[Role vcard]])
      ++ lines_if (nonempty_slice (Org vcard)) (mkContentLine "" "ORG" ∅ [Org vcard])
      ++ lines_if (nonempty_slice (Categories vcard))
           (mkContentLine "" "CATEGORIES" ∅ [Categories vcard])
      ++ lines_if (nonempty_string (Note vcard))
           (mkContentLine "" "NOTE" ∅ [[Note vcard]])
      ++ lines_if (nonempty_string (URL vcard)) (mkContentLine "" "URL" ∅ [[URL vcard]])
      ++ flat_map (λ x, XJabber_WriteTo x []) (XJabbers vcard)
      ++ lines_if (nonempty_string (XABShowAs vcard))
           (mkContentLine "" "X-ABShowAs" ∅ [[XABShowAs vcard]])
      ++ lines_if (nonempty_string (XABuid vcard))
           (mkContentLine "" "X-ABUID" ∅ [[XABuid vcard]])
      ++ [mkContentLine "" "END" ∅ [["VCARD"]]])%list.
Proof.
  unfold VCard_WriteTo. cbv zeta.
  rewrite !write_if_lines.
  rewrite (range_WriteTo_lines XJabber_WriteTo) by reflexivity.
  rewrite (range_WriteTo_lines Email_WriteTo) by reflexivity.
  rewrite (range_WriteTo_lines Telephone_WriteTo) by reflexivity.
  rewrite (range_WriteTo_lines Address_WriteTo) by reflexivity.
  rewrite (Photo_WriteTo_lines _ (_ ++ _)%list).
  unfold WriteContentLine.
  rewrite <- !app_assoc. reflexivity.
Qed.

(** ** Reading back what was written *)

Lemma set_Addresses_idem x y v : set_Addresses x (set_Addresses y v) = set_Addresses x v.
Proof. by destruct v. Qed.

Lemma set_Telephones_idem x y v : set_Telephones x (set_Telephones y v) = set_Telephones x v.
Proof. by destruct v. Qed.

Lemma set_Emails_idem x y v : set_Emails x (set_Emails y v) = set_Emails x v.
Proof. by destruct v. Qed.

Lemma set_XJabbers_idem x y v : set_XJabbers x (set_XJabbers y v) = set_XJabbers x v.
Proof. by destruct v. Qed.

Section ReadBack.
Context `{DirInfo}.
Hypothesis Hplain : plain_text H.
Implicit Types (contentLine : ContentLine) (st : State) (di rest : DirectoryInfoReader).

Lemma plain_Value_GetText s : Value_GetText [s] = s.
Proof. apply Hplain. Qed.

Lemma plain_Value_GetText_nil : Value_GetText [] = "".
Proof. apply Hplain. Qed.

Lemma plain_SV_GetText s : SV_GetText [[s]] = s.
Proof. apply Hplain. Qed.

Lemma plain_SV_GetTextList l : SV_GetTextList [l] = l.
Proof. apply Hplain. Qed.

(** Without an [ENCODING] parameter the text of a one-string component
    is delivered as it is. *)
Lemma delivered_text_plain contentLine s :
  cl_Params contentLine !! "ENCODING" = None ->
  delivered_text contentLine [s] = s.
Proof.
  intros Hnone. unfold delivered_text, param_at. rewrite Hnone. cbn [default].
  by rewrite plain_Value_GetText_nil, plain_Value_GetText.
Qed.

Lemma component_at_plain contentLine index s :
  cl_Params contentLine !! "ENCODING" = None ->
  cl_Value contentLine !! Z.to_nat index = Some [s] ->
  component_at contentLine index = ([s], s).
Proof.
  intros Hnone Hs. unfold component_at. rewrite Hs.
  by rewrite delivered_text_plain.
Qed.

Lemma ReadFrom_lines_if c line rest st st' :
  switch_Name line st = Some (Next, st') ->
  (c = false -> st' = st) ->
  ReadFrom (lines_if c line ++ rest) st = ReadFrom rest st'.
Proof.
  intros Hrun Hskip. destruct c; cbn.
  - by apply ReadFrom_Next.
  - by rewrite Hskip.
Qed.

Lemma nonempty_string_false s : nonempty_string s = false -> s = "".
Proof. by destruct s. Qed.

Lemma nonempty_slice_false {A} (l : list A) : nonempty_slice l = false -> l = [].
Proof. by destruct l. Qed.

Lemma ReadFrom_Address_lines addrs rest st :
  ReadFrom (flat_map (λ x, Address_WriteTo x []) addrs ++ rest) st =
  ReadFrom rest
    (mkState (set_Addresses (Addresses (card st) ++ (read_back_address <$> addrs)) (card st))
             (logged st)).
Proof.
  revert st. induction addrs as [|addr addrs IH]; intros [vcard lg]; cbn [flat_map fmap list_fmap app card logged].
  - rewrite app_nil_r. by destruct vcard.
  - cbn [Address_WriteTo WriteContentLine app].
    erewrite ReadFrom_Next; [rewrite IH|].
    2:{ rewrite switch_Name_ADR by reflexivity. exec_unfold.
        rewrite read_ADR_eq. cbn [cl_Value length Z.of_nat]. reflexivity. }
    cbn [card logged].
    rewrite set_Addresses_idem, Addresses_set_Addresses, <- app_assoc, app_nil_r.
    do 3 f_equal.
    unfold ADR_address, read_back_address, type_param.
    cbn [cl_Params].
    rewrite lookup_insert_ne by done. rewrite lookup_empty.
    repeat (erewrite component_at_plain;
            [|cbn [cl_Params]; by rewrite lookup_insert_ne, lookup_empty|reflexivity]).
    reflexivity.
Qed.

Lemma ReadFrom_Telephone_lines tels rest st :
  ReadFrom (flat_map (λ x, Telephone_WriteTo x []) tels ++ rest) st =
  ReadFrom rest
    (mkState (set_Telephones (Telephones (card st) ++ tels) (card st)) (logged st)).
Proof.
  revert st. induction tels as [|tel tels IH]; intros [vcard lg];
    cbn [flat_map app card logged].
  - rewrite app_nil_r. by destruct vcard.
  - cbn [Telephone_WriteTo WriteContentLine app].
    erewrite ReadFrom_Next; [rewrite IH|].
    2:{ rewrite switch_Name_TEL by reflexivity. reflexivity. }
    cbn [card logged].
    rewrite set_Telephones_idem, Telephones_set_Telephones, <- app_assoc.
    do 3 f_equal. unfold type_param. cbn [cl_Params cl_Value app].
    rewrite lookup_insert_eq, plain_SV_GetText. by destruct tel.
Qed.

Lemma ReadFrom_Email_lines emails rest st :
  ReadFrom (flat_map (λ x, Email_WriteTo x []) emails ++ rest) st =
  ReadFrom rest
    (mkState (set_Emails (Emails (card st) ++ emails) (card st)) (logged st)).
Proof.
  revert st. induction emails as [|email emails IH]; intros [vcard lg];
    cbn [flat_map app card logged].
  - rewrite app_nil_r. by destruct vcard.
  - cbn [Email_WriteTo WriteContentLine app].
    erewrite ReadFrom_Next; [rewrite IH|].
    2:{ rewrite switch_Name_EMAIL by reflexivity. reflexivity. }
    cbn [card logged].
    rewrite set_Emails_idem, Emails_set_Emails, <- app_assoc.
    do 3 f_equal. unfold type_param. cbn [cl_Params cl_Value app].
    rewrite lookup_insert_eq, plain_SV_GetText. by destruct email.
Qed.

Lemma ReadFrom_XJabber_lines jabs rest st :
  ReadFrom (flat_map (λ x, XJabber_WriteTo x []) jabs ++ rest) st =
  ReadFrom rest
    (mkState (set_XJabbers (XJabbers (card st) ++ jabs) (card st)) (logged st)).
Proof.
  revert st. induction jabs as [|jab jabs IH]; intros [vcard lg];
    cbn [flat_map app card logged].
  - rewrite app_nil_r. by destruct vcard.
  - cbn [XJabber_WriteTo WriteContentLine app].
    erewrite ReadFrom_Next; [rewrite IH|].
    2:{ rewrite switch_Name_XJABBER by reflexivity. reflexivity. }
    cbn [card logged].
    rewrite set_XJabbers_idem, XJabbers_set_XJabbers, <- app_assoc.
    do 3 f_equal. unfold type_param. cbn [cl_Params cl_Value app].
    rewrite lookup_insert_eq, plain_SV_GetText. by destruct jab.
Qed.

Lemma switch_Name_PHOTO contentLine :
  case_of (cl_Name contentLine) ["PHOTO"; "photo"] = true ->
  switch_Name contentLine = (read_PHOTO contentLine;; mret Next).
Proof. switch_to (cl_Name contentLine). Qed.

(** The parameters of the [PHOTO] line, as [read_PHOTO] finds them. *)
Lemma Photo_params_read photo line :
  Photo_WriteTo photo [] = [line] ->
  cl_Name line = "PHOTO"
  /\ Value_GetText (param_at (cl_Params line) "ENCODING") = photo_Encoding photo
  /\ Value_GetText (param_at (cl_Params line) "TYPE") = ""
  /\ Value_GetText (param_at (cl_Params line) "VALUE") = photo_Value photo
  /\ SV_GetText (cl_Value line) = photo_Data photo.
Proof.
  unfold Photo_WriteTo. destruct (Nat.eqb _ 0); [discriminate|].
  intros [= <-]. cbn [cl_Name cl_Params cl_Value]. split; [reflexivity|].
  rewrite plain_SV_GetText. unfold param_at, insert_if.
  destruct (String.eqb_spec (photo_Encoding photo) "") as [->|?];
    destruct (String.eqb_spec (photo_Type photo) "") as [Ht|?];
    destruct (String.eqb_spec (photo_Value photo) "") as [->|?];
    cbn [negb andb];
    repeat split;
    repeat first
      [ rewrite lookup_insert_eq
      | rewrite lookup_insert_ne by done
      | rewrite lookup_empty ];
    cbn [default from_option id];
    rewrite ?plain_Value_GetText, ?plain_Value_GetText_nil; reflexivity.
Qed.

Lemma ReadFrom_Photo_lines photo rest st :
  vc_Photo (card st) = zeroPhoto ->
  ReadFrom (Photo_WriteTo photo [] ++ rest) st =
  ReadFrom rest (mkState (set_Photo (read_back_photo photo) (card st)) (logged st)).
Proof.
  intros Hzero. unfold read_back_photo.
  destruct (Photo_WriteTo photo []) as [|line lines] eqn:Hlines.
  - unfold Photo_WriteTo in Hlines.
    destruct (Nat.eqb _ 0); [|discriminate Hlines].
    cbn [app]. f_equal. rewrite <- Hzero. destruct st as [[] lg]. reflexivity.
  - assert (lines = []) as ->.
    { unfold Photo_WriteTo in Hlines. destruct (Nat.eqb _ 0); [discriminate|].
      by injection Hlines. }
    destruct (Photo_params_read photo line Hlines) as (Hname & He & Ht & Hv & Hd).
    unfold Photo_WriteTo in Hlines.
    destruct (Nat.eqb _ 0); [discriminate|].
    cbn [app]. apply ReadFrom_Next.
    rewrite switch_Name_PHOTO by (by rewrite Hname).
    unfold read_PHOTO. exec_unfold. rewrite He, Ht, Hv, Hd.
    cbn [card logged]. do 3 f_equal.
    destruct st as [[] lg]. cbn in Hzero. subst. by destruct photo.
Qed.

Ltac simpl_state :=
  cbn [card logged set_Version set_FormattedName set_FamilyNames set_GivenNames
       set_AdditionalNames set_HonorificNames set_HonorificSuffixes set_NickNames
       set_Photo set_Birthday set_Addresses set_Telephones set_Emails set_Title
       set_Role set_Org set_Categories set_Note set_URL set_XJabbers set_XABuid
       set_XABShowAs Addresses Telephones Emails XJabbers vc_Photo app].

Ltac read_line :=
  erewrite ReadFrom_Next;
  [|unfold switch_Name; cbn; exec_unfold; reflexivity];
  simpl_state;
  rewrite ?plain_SV_GetText, ?plain_SV_GetTextList.

Ltac read_optional_line :=
  erewrite ReadFrom_lines_if;
  [|unfold switch_Name; cbn; exec_unfold; reflexivity
   |let Hc := fresh "Hc" in
    intros Hc;
    first [apply nonempty_string_false in Hc | apply nonempty_slice_false in Hc];
    rewrite Hc, ?plain_SV_GetText, ?plain_SV_GetTextList; reflexivity];
  simpl_state;
  rewrite ?plain_SV_GetText, ?plain_SV_GetTextList.

(** Reading back one written card: [ReadFrom], started on the zero card
    in front of the lines [WriteTo] wrote for [vcard], stops after the
    [END] line of the card, has logged only the [BEGIN] line as not read,
    and holds [read_back vcard]. *)
Lemma ReadFrom_VCard_lines vcard rest lg :
  ReadFrom (VCard_WriteTo vcard [] ++ rest) (mkState zeroVCard lg) =
  Some (rest, mkState (read_back vcard) (lg ++ [Not_read "" "BEGIN" [["VCARD"]]])).
Proof.
  rewrite VCard_WriteTo_lines. rewrite <- !app_assoc.
  unfold zeroVCard, read_back.
  destruct vcard as [version fn family given additional honorific suffixes nick photo
                     bday addrs tels emails title role org cats note url jabs abuid showas].
  cbn [Version FormattedName FamilyNames GivenNames AdditionalNames HonorificNames
       HonorificSuffixes NickNames vc_Photo Birthday Addresses Telephones Emails
       Title Role Org Categories Note URL XJabbers XABuid XABShowAs app].
  read_line. read_line. read_line.
  erewrite ReadFrom_Next.
  2:{ rewrite switch_Name_N by reflexivity. exec_unfold. rewrite read_N_eq.
      cbn [cl_Value length]. reflexivity. }
  unfold N_assigned, N_diagnostics. rewrite !component_at_fst.
  unfold familyNames, givenNames, additionalNames, honorificPrefixes, honorificSuffixes,
    nameSize.
  cbn. rewrite app_nil_r.
  read_optional_line.
  rewrite ReadFrom_Photo_lines by reflexivity. simpl_state.
  read_optional_line.
  rewrite ReadFrom_Address_lines, ReadFrom_Telephone_lines, ReadFrom_Email_lines.
  simpl_state.
  do 6 read_optional_line.
  rewrite ReadFrom_XJabber_lines. simpl_state.
  do 2 read_optional_line.
  cbn [ReadFrom]. unfold mbind, Exec_bind, switch_Name. cbn.
  rewrite plain_SV_GetText. reflexivity.
Qed.

End ReadBack.

(** X1. Reading back a written card. When the rest of the package gives
    one-string values their plain text, [ReadFrom], started on the zero
    card at the lines that [WriteTo] wrote for [vcard], returns with the
    reader just after the card's [END] line and with every field of
    [vcard] restored, except that the version is [3.0], every address has
    the default type and an empty label, and the photo has an empty type
    (and is the zero photo when it had no data); the only diagnostic is
    the [BEGIN] line, logged as not read. *)
Theorem WriteTo_then_ReadFrom (D : DirInfo) vcard rest lg :
  plain_text D ->
  @ReadFrom D (VCard_WriteTo vcard [] ++ rest) (mkState zeroVCard lg) =
  Some (rest, mkState (read_back vcard) (lg ++ [Not_read "" "BEGIN" [["VCARD"]]])).
Proof. intros Hplain. by apply ReadFrom_VCard_lines. Qed.

Lemma sampleDirInfo_plain_text : plain_text sampleDirInfo.
Proof. by repeat split. Qed.

Lemma WriteTo_then_ReadFrom_witness :
  plain_text sampleDirInfo
  /\ @ReadFrom sampleDirInfo (VCard_WriteTo sample_card [] ++ [sample_line "FN" "next"])
       (mkState zeroVCard [])
     = Some ([sample_line "FN" "next"],
             mkState (read_back sample_card) [Not_read "" "BEGIN" [["VCARD"]]]).
Proof.
  split; [exact sampleDirInfo_plain_text|].
  apply (WriteTo_then_ReadFrom sampleDirInfo sample_card [sample_line "FN" "next"] []).
  exact sampleDirInfo_plain_text.
Defined.

Lemma read_back_address_idem addr :
  read_back_address (read_back_address addr) = read_back_address addr.
Proof. reflexivity. Qed.

Lemma read_back_photo_idem photo :
  read_back_photo (read_back_photo photo) = read_back_photo photo.
Proof.
  unfold read_back_photo.
  destruct (Nat.eqb (String.length (photo_Data photo)) 0) eqn:Hdata; [reflexivity|].
  cbn [set_photo_Type photo_Data]. by rewrite Hdata.
Qed.

Lemma read_back_idem vcard : read_back (read_back vcard) = read_back vcard.
Proof.
  destruct vcard. unfold read_back.
  cbn [set_Version set_Photo set_Addresses Addresses vc_Photo].
  rewrite read_back_photo_idem. f_equal.
  rewrite <- list_fmap_compose. apply list_fmap_ext. intros _ addr _.
  apply read_back_address_idem.
Qed.

(** X2. A card that was read back from written lines goes through
    writing and reading unchanged: the second round trip loses nothing. *)
Theorem read_back_card_round_trips (D : DirInfo) vcard rest lg :
  plain_text D ->
  @ReadFrom D (VCard_WriteTo (read_back vcard) [] ++ rest) (mkState zeroVCard lg) =
  Some (rest, mkState (read_back vcard) (lg ++ [Not_read "" "BEGIN" [["VCARD"]]])).
Proof.
  intros Hplain. rewrite (@ReadFrom_VCard_lines D Hplain). by rewrite read_back_idem.
Qed.

Lemma read_back_card_round_trips_witness :
  plain_text sampleDirInfo
  /\ @ReadFrom sampleDirInfo (VCard_WriteTo (read_back sample_card) [] ++ [])
       (mkState zeroVCard [])
     = Some ([], mkState (read_back sample_card) [Not_read "" "BEGIN" [["VCARD"]]]).
Proof.
  split; [exact sampleDirInfo_plain_text|].
  apply (read_back_card_round_trips sampleDirInfo sample_card [] []).
  exact sampleDirInfo_plain_text.
Defined.

Lemma VCard_WriteTo_app vcard di :
  VCard_WriteTo vcard di = (di ++ VCard_WriteTo vcard [])%list.
Proof. by rewrite VCard_WriteTo_lines, (VCard_WriteTo_lines vcard []). Qed.


(** X4. A stream of two written cards is read one card per call: the
    first [ReadFrom] restores the first card and leaves the reader at the
    lines of the second, from which a second [ReadFrom] restores the
    second card and leaves the reader exhausted. *)
Theorem two_cards_two_reads (D : DirInfo) vcard1 vcard2 lg :
  plain_text D ->
  @ReadFrom D (VCard_WriteTo vcard2 (VCard_WriteTo vcard1 [])) (mkState zeroVCard lg)
  = Some (VCard_WriteTo vcard2 [],
          mkState (read_back vcard1) (lg ++ [Not_read "" "BEGIN" [["VCARD"]]]))
  /\ @ReadFrom D (VCard_WriteTo vcard2 []) (mkState zeroVCard lg)
     = Some ([], mkState (read_back vcard2) (lg ++ [Not_read "" "BEGIN" [["VCARD"]]])).
Proof.
  intros Hplain. split.
  - rewrite (VCard_WriteTo_app vcard2). by apply ReadFrom_VCard_lines.
  - rewrite <- (app_nil_r (VCard_WriteTo vcard2 [])). by apply ReadFrom_VCard_lines.
Qed.

Lemma two_cards_two_reads_witness :
  plain_text sampleDirInfo
  /\ @ReadFrom sampleDirInfo (VCard_WriteTo zeroVCard (VCard_WriteTo sample_card []))
       (mkState zeroVCard [])
     = Some (VCard_WriteTo zeroVCard [],
             mkState (read_back sample_card) [Not_read "" "BEGIN" [["VCARD"]]]).
Proof.
  split; [exact sampleDirInfo_plain_text|].
  apply (proj1 (two_cards_two_reads sampleDirInfo sample_card zeroVCard []
                  sampleDirInfo_plain_text)).
Defined.

(** ** The loop of [ReadFrom] *)

Section Loop.
Context `{DirInfo}.
Implicit Types (contentLine : ContentLine) (st : State) (di rest : DirectoryInfoReader).

Lemma ReadFrom_step contentLine di st :
  ReadFrom (contentLine :: di) st =
  match switch_Name contentLine st with
  | Some (Return, st') => Some (di, st')
  | Some (Next, st') => ReadFrom di st'
  | None => None
  end.
Proof.
  cbn [ReadFrom]. unfold mbind, Exec_bind.
  by destruct (switch_Name contentLine st) as [[[] ?]|].
Qed.

(** X5. Reading composes along the stream: when no line of [before] is
    an [END] line with value [VCARD], [ReadFrom] on [before] alone
    exhausts it, and [ReadFrom] on [before] followed by [rest] is
    [ReadFrom] on [rest] from the state reached at the end of [before]. *)
Theorem ReadFrom_app before rest st :
  Forall (λ contentLine, is_END_VCARD contentLine = false) before ->
  exists st',
    ReadFrom before st = Some ([], st')
    /\ ReadFrom (before ++ rest) st = ReadFrom rest st'.
Proof.
  intros Hbefore. revert st.
  induction Hbefore as [|contentLine before Hline _ IH]; intros st.
  - by exists st.
  - destruct (switch_Name_shape contentLine st) as [card' Hs].
    rewrite Hline in Hs.
    destruct (IH (mkState card' (logged st ++ diagnostics_of contentLine)))
      as (st' & Hrun & Happ).
    exists st'. cbn [app]. rewrite !ReadFrom_step, Hs. by split.
Qed.

(** X6. The log of [ReadFrom]. The lines taken from the reader are the
    lines up to and including the first [END] line with value [VCARD];
    the log is only appended to, by the diagnostics of those lines in
    order: a field-count note for an [N] line that has not 5 components
    or an [ADR] line that has not 7, a not-read note for a name that is
    none of the labels, and nothing for any other line. *)
Theorem ReadFrom_logged di st :
  exists rest st',
    ReadFrom di st = Some (rest, st')
    /\ di = (consumed di ++ rest)%list
    /\ logged st' = (logged st ++ flat_map diagnostics_of (consumed di))%list.
Proof.
  revert st. induction di as [|contentLine di IH]; intros st.
  - exists [], st. cbn. rewrite app_nil_r. by repeat split.
  - destruct (ReadFrom_cons contentLine di st) as [card' Hcons].
    rewrite Hcons. cbn [consumed].
    destruct (is_END_VCARD contentLine).
    + eexists _, _. split; [reflexivity|]. cbn. rewrite app_nil_r. by split.
    + destruct (IH (mkState card' (logged st ++ diagnostics_of contentLine)))
        as (rest & st' & Hrun & Hdi & Hlog).
      exists rest, st'. split; [exact Hrun|]. split.
      * cbn [app]. by rewrite <- Hdi.
      * rewrite Hlog. cbn [logged flat_map]. by rewrite app_assoc.
Qed.

Ltac run_lists :=
  exec_unfold; rewrite ?read_N_eq, ?read_ADR_eq;
  unfold read_PHOTO, read_TEL, read_EMAIL, read_XJABBER;
  exec_unfold; cbn [card logged];
  repeat match goal with
    | |- context [if ?b then _ else _] => destruct b
    end;
  eexists _, _; (split; [reflexivity|]);
  cbn [card andb];
  rewrite ?app_nil_r; by repeat split.

(** One pass through the [switch] appends the entries of the line to the
    four lists of the card. *)
Lemma switch_Name_lists contentLine st :
  exists flow st',
    switch_Name contentLine st = Some (flow, st')
    /\ Addresses (card st') = (Addresses (card st) ++ address_entries contentLine)%list
    /\ Telephones (card st') = (Telephones (card st) ++ telephone_entries contentLine)%list
    /\ Emails (card st') = (Emails (card st) ++ email_entries contentLine)%list
    /\ XJabbers (card st') = (XJabbers (card st) ++ jabber_entries contentLine)%list.
Proof.
  destruct st as [[] lg].
  unfold switch_Name, address_entries, telephone_entries, email_entries, jabber_entries,
    case_of.
  cbv zeta. cbn [existsb].
  remember (cl_Name contentLine) as n eqn:Hn.
  by_label n run_lists.
  cbn. run_lists.
Qed.

(** X7. The four lists of the card only grow, by one entry per line:
    after [ReadFrom], [Addresses], [Telephones], [Emails] and [XJabbers]
    are what they were, followed by an address for each [ADR] line with at
    least one component, a telephone for each [TEL] line, an email for
    each [EMAIL] line and a jabber entry for each [X-JABBER] or [X-GTALK]
    line, among the lines taken from the reader and in their order. *)
Theorem ReadFrom_lists_grow di st :
  exists rest st',
    ReadFrom di st = Some (rest, st')
    /\ Addresses (card st')
       = (Addresses (card st) ++ flat_map address_entries (consumed di))%list
    /\ Telephones (card st')
       = (Telephones (card st) ++ flat_map telephone_entries (consumed di))%list
    /\ Emails (card st')
       = (Emails (card st) ++ flat_map email_entries (consumed di))%list
    /\ XJabbers (card st')
       = (XJabbers (card st) ++ flat_map jabber_entries (consumed di))%list.
Proof.
  revert st. induction di as [|contentLine di IH]; intros st.
  - exists [], st. cbn. by rewrite !app_nil_r.
  - destruct (switch_Name_lists contentLine st)
      as (flow & st1 & Hs & Ha & Ht & He & Hj).
    destruct (switch_Name_shape contentLine st) as [card' Hshape].
    rewrite Hs in Hshape. injection Hshape as Hflow _.
    rewrite ReadFrom_step, Hs. cbn [consumed].
    destruct (is_END_VCARD contentLine); subst flow.
    + exists di, st1. cbn [flat_map]. rewrite !app_nil_r. by repeat split.
    + destruct (IH st1) as (rest & st' & Hrun & Ha' & Ht' & He' & Hj').
      exists rest, st'. split; [exact Hrun|].
      cbn [flat_map]. rewrite Ha', Ht', He', Hj', Ha, Ht, He, Hj.
      by rewrite <- !app_assoc.
Qed.

End Loop.

Lemma ReadFrom_app_witness :
  Forall (λ contentLine, @is_END_VCARD sampleDirInfo contentLine = false)
    [sample_line "FN" "John Doe"; sample_line "END" "VCALENDAR"]
  /\ exists st',
       @ReadFrom sampleDirInfo [sample_line "FN" "John Doe"; sample_line "END" "VCALENDAR"]
         (mkState zeroVCard [])
       = Some ([], st')
       /\ @ReadFrom sampleDirInfo
            ([sample_line "FN" "John Doe"; sample_line "END" "VCALENDAR"]
             ++ [sample_line "TEL" "555-0100"])
            (mkState zeroVCard [])
          = @ReadFrom sampleDirInfo [sample_line "TEL" "555-0100"] st'.
Proof.
  assert (Forall (λ contentLine, @is_END_VCARD sampleDirInfo contentLine = false)
            [sample_line "FN" "John Doe"; sample_line "END" "VCALENDAR"]) as Hbefore.
  { repeat constructor. }
  split; [exact Hbefore|].
  apply (@ReadFrom_app sampleDirInfo
           [sample_line "FN" "John Doe"; sample_line "END" "VCALENDAR"]
           [sample_line "TEL" "555-0100"] (mkState zeroVCard []) Hbefore).
Defined.

(** ** Field counts of [N] and [ADR] lines *)

Section FieldCounts.
Context `{DirInfo}.
Implicit Types (contentLine : ContentLine) (st : State) (di : DirectoryInfoReader).

(** X8. An [N] line never stops the read. With no component it leaves
    the card as it was and logs that [N] has no field; with more than 5
    components it logs their number as "more fields", with fewer as "less
    fields", and with exactly 5 it logs nothing. *)
Theorem ReadFrom_N_field_count contentLine di st :
  case_of (cl_Name contentLine) ["N"; "n"] = true ->
  exists st',
    ReadFrom (contentLine :: di) st = ReadFrom di st'
    /\ logged st' =
       (logged st ++
        let n := Z.of_nat (length (cl_Value contentLine)) in
        if n =? 0 then [N_no_field]
        else if n >? 5 then [N_more_fields n]
        else if n <? 5 then [N_less_fields n]
        else [])%list
    /\ (cl_Value contentLine = [] -> card st' = card st).
Proof.
  intros Hname. cbv zeta.
  destruct (cl_Value contentLine) as [|v sv] eqn:Hv.
  - exists (mkState (card st) (logged st ++ [N_no_field])). split; [|by cbn].
    apply ReadFrom_Next. rewrite (switch_Name_N _ Hname).
    exec_unfold. by rewrite read_N_eq, Hv.
  - exists (mkState (N_assigned contentLine (card st))
              (logged st ++ N_diagnostics (Z.of_nat (length (v :: sv))))).
    split; [|split; [|discriminate]].
    + apply ReadFrom_Next. rewrite (switch_Name_N _ Hname).
      exec_unfold. by rewrite read_N_eq, Hv, nonempty_length.
    + destruct (Z.eqb_spec (Z.of_nat (length (v :: sv))) 0) as [Hz|_];
        [cbn [length] in Hz; lia|].
      reflexivity.
Qed.


(** X10. The text of an [ADR] component. For an [ADR] line and a
    component of index 0 to 6: when the [ENCODING] parameter is
    [quoted-printable] up to case and the quoted-printable reader returns
    bytes without error, the address field of that component holds these
    bytes; when the [ENCODING] parameter is anything else or missing, the
    field holds the text of the component as it is. *)
Theorem ReadFrom_ADR_component_text contentLine index v di st :
  case_of (cl_Name contentLine) ["ADR"; "adr"] = true ->
  0 <= index <= 6 ->
  cl_Value contentLine !! Z.to_nat index = Some v ->
  exists address st',
    ReadFrom (contentLine :: di) st = ReadFrom di st'
    /\ Addresses (card st') = (Addresses (card st) ++ [address])%list
    /\ (ToLower (Value_GetText (param_at (cl_Params contentLine) "ENCODING"))
        = "quoted-printable" ->
        forall bytes,
          qpReadAll (Value_GetText v) = (bytes, None) ->
          address_field index address = bytes)
    /\ (ToLower (Value_GetText (param_at (cl_Params contentLine) "ENCODING"))
        <> "quoted-printable" ->
        address_field index address = Value_GetText v).
Proof.
  intros Hname Hrange Hv.
  assert (cl_Value contentLine <> []) as Hlen.
  { intros Hnil. rewrite Hnil in Hv. by rewrite lookup_nil in Hv. }
  destruct (ReadFrom_ADR contentLine di st Hname Hlen) as (st' & Hrun & Hadr).
  exists (ADR_address contentLine), st'. split; [exact Hrun|]. split; [exact Hadr|].
  rewrite address_field_ADR_address by (unfold countryName; lia).
  unfold component_at. rewrite Hv. cbn [snd]. unfold delivered_text. split.
  - intros Henc bytes Hbytes. rewrite Henc, Hbytes. reflexivity.
  - intros Henc.
    by destruct (String.eqb_spec
                   (ToLower (Value_GetText (param_at (cl_Params contentLine) "ENCODING")))
                   "quoted-printable").
Qed.

End FieldCounts.

Lemma ReadFrom_N_field_count_witness :
  case_of (cl_Name (mkContentLine "" "n" ∅ [])) ["N"; "n"] = true
  /\ exists st',
       @ReadFrom sampleDirInfo [mkContentLine "" "n" ∅ []] (mkState zeroVCard [])
       = @ReadFrom sampleDirInfo [] st'
       /\ logged st' = [N_no_field].
Proof.
  split; [reflexivity|].
  destruct (@ReadFrom_N_field_count sampleDirInfo (mkContentLine "" "n" ∅ []) []
              (mkState zeroVCard []) eq_refl) as (st' & Hrun & Hlog & _).
  exists st'. split; [exact Hrun|exact Hlog].
Defined.


Lemma ReadFrom_ADR_component_text_witness :
  case_of (cl_Name (mkContentLine "" "ADR" sample_qp_params [["=41"]; ["caf=C3=A9"]]))
    ["ADR"; "adr"] = true
  /\ 0 <= 1 <= 6
  /\ cl_Value (mkContentLine "" "ADR" sample_qp_params [["=41"]; ["caf=C3=A9"]])
     !! Z.to_nat 1 = Some ["caf=C3=A9"]
  /\ exists address st',
       @ReadFrom sampleDirInfo
         [mkContentLine "" "ADR" sample_qp_params [["=41"]; ["caf=C3=A9"]]]
         (mkState zeroVCard [])
       = @ReadFrom sampleDirInfo [] st'
       /\ Addresses (card st') = [address]
       /\ address_field 1 address = "café".
Proof.
  split; [reflexivity|]. split; [lia|]. split; [reflexivity|].
  destruct (@ReadFrom_ADR_component_text sampleDirInfo
              (mkContentLine "" "ADR" sample_qp_params [["=41"]; ["caf=C3=A9"]])
              1 ["caf=C3=A9"] [] (mkState zeroVCard []) eq_refl ltac:(lia) eq_refl)
    as (address & st' & Hrun & Hadr & Hdecoded & _).
  exists address, st'. split; [exact Hrun|]. split; [exact Hadr|].
  apply Hdecoded; vm_compute; reflexivity.
Defined.

(** ** [Photo.WriteTo] *)

(** X11. [Photo.WriteTo] writes nothing for a photo without data. For a
    photo with data it appends exactly one [PHOTO] line holding the data,
    whose parameters are never empty: [ENCODING], [type] and [VALUE] are
    there exactly for the fields that are not the empty string, each with
    its one string, and [BASE64], with no string, is there exactly when
    all three fields are empty. *)
Theorem Photo_WriteTo_parameters photo di :
  (photo_Data photo = "" -> Photo_WriteTo photo di = di)
  /\ (photo_Data photo <> "" ->
      exists params,
        Photo_WriteTo photo di
        = (di ++ [mkContentLine "" "PHOTO" params [[photo_Data photo]]])%list
        /\ params <> ∅
        /\ params !! "ENCODING"
           = (if String.eqb (photo_Encoding photo) "" then None
              else Some [photo_Encoding photo])
        /\ params !! "type"
           = (if String.eqb (photo_Type photo) "" then None else Some [photo_Type photo])
        /\ params !! "VALUE"
           = (if String.eqb (photo_Value photo) "" then None else Some [photo_Value photo])
        /\ params !! "BASE64"
           = (if String.eqb (photo_Encoding photo) "" && String.eqb (photo_Type photo) ""
                 && String.eqb (photo_Value photo) ""
              then Some [] else None)).
Proof.
  unfold Photo_WriteTo. split.
  - by intros ->.
  - intros Hdata.
    destruct (Nat.eqb_spec (String.length (photo_Data photo)) 0) as [Hzero|_].
    { by destruct (photo_Data photo). }
    eexists. split; [reflexivity|].
    unfold insert_if.
    destruct (String.eqb (photo_Encoding photo) "");
      destruct (String.eqb (photo_Type photo) "");
      destruct (String.eqb (photo_Value photo) "");
      cbn [negb andb];
      (split; [by apply insert_non_empty|]);
      repeat split;
      repeat first
        [ rewrite lookup_insert_eq
        | rewrite lookup_insert_ne by done
        | rewrite lookup_empty ];
      reflexivity.
Qed.

Lemma Photo_WriteTo_parameters_witness :
  photo_Data (mkPhoto "" "" "" "AAAA") <> ""
  /\ exists params,
       Photo_WriteTo (mkPhoto "" "" "" "AAAA") []
       = [mkContentLine "" "PHOTO" params [["AAAA"]]]
       /\ params !! "BASE64" = Some [].
Proof.
  split; [discriminate|].
  destruct (proj2 (Photo_WriteTo_parameters (mkPhoto "" "" "" "AAAA") []))
    as (params & Hrun & _ & _ & _ & _ & Hbase64).
  - discriminate.
  - exists params. split; [exact Hrun|exact Hbase64].
Defined.

(** ** Display *)

Lemma append_nil_r s : String.append s "" = s.
Proof. induction s as [|c s IH]; [reflexivity|]. change (String c (String.append s "") = String c s). by rewrite IH. Qed.

Lemma append_assoc s1 s2 s3 :
  String.append (String.append s1 s2) s3 = String.append s1 (String.append s2 s3).
Proof.
  induction s1 as [|c s1 IH]; [reflexivity|].
  change (String c (String.append (String.append s1 s2) s3)
          = String c (String.append s1 (String.append s2 s3))).
  by rewrite IH.
Qed.

Lemma length_append s1 s2 :
  String.length (String.append s1 s2) = (String.length s1 + String.length s2)%nat.
Proof.
  induction s1 as [|c s1 IH]; [reflexivity|].
  change (S (String.length (String.append s1 s2))
          = S (String.length s1 + String.length s2)).
  by rewrite IH.
Qed.

(** The loop of [displayStrings] started on any text. *)
Lemma displayStrings_from ss display :
  fold_left (λ display s, String.append display (String.append s ", ")) ss display
  = String.append display (displayStrings ss).
Proof.
  unfold displayStrings. revert display.
  induction ss as [|s ss IH]; intros display; cbn [fold_left].
  - by rewrite append_nil_r.
  - rewrite (IH (String.append display _)), (IH (String.append "" _)).
    change (String.append "" (String.append s ", ")) with (String.append s ", ").
    by rewrite append_assoc.
Qed.

(** X12. [displayStrings] follows every string, the last one too, by a
    comma and a space: the display of the empty list is empty, the
    display of a list followed by another is the display of the first
    followed by the display of the second, and its length is the sum of
    the lengths of the strings plus two for each string. *)
Theorem displayStrings_app ss1 ss2 :
  displayStrings [] = ""
  /\ (forall s, displayStrings [s] = String.append s ", ")
  /\ displayStrings (ss1 ++ ss2) = String.append (displayStrings ss1) (displayStrings ss2)
  /\ String.length (displayStrings ss1)
     = (list_sum (String.length <$> ss1) + 2 * length ss1)%nat.
Proof.
  split; [reflexivity|]. split; [reflexivity|]. split.
  - unfold displayStrings at 1. rewrite fold_left_app.
    fold (displayStrings ss1). apply displayStrings_from.
  - induction ss1 as [|s ss1 IH]; [reflexivity|].
    change (displayStrings (s :: ss1))
      with (fold_left (λ display s, String.append display (String.append s ", ")) ss1
              (String.append "" (String.append s ", "))).
    rewrite displayStrings_from, !length_append, IH.
    cbn [fmap list_fmap length String.length].
    change (list_sum (String.length s :: (String.length <$> ss1)))
      with (String.length s + list_sum (String.length <$> ss1))%nat.
    lia.
Qed.

Section Display.
Context `{DirInfo}.
Implicit Types (contentLine : ContentLine) (st : State) (di : DirectoryInfoReader).

Ltac run_display :=
  first
    [ discriminate
    | intros _; exec_unfold; rewrite ?read_ADR_eq;
      unfold read_PHOTO, read_TEL, read_EMAIL, read_XJABBER;
      exec_unfold; cbn [card logged];
      repeat match goal with
        | |- context [if ?b then _ else _] => destruct b
        end;
      eexists _, _; split; reflexivity ].

(** A line that is not a [VERSION], [FN] or [N] line leaves what
    [String] shows as it was. *)
Lemma switch_Name_String contentLine st :
  case_of (cl_Name contentLine) ["VERSION"; "version"; "FN"; "fn"; "N"; "n"] = false ->
  exists flow st',
    switch_Name contentLine st = Some (flow, st')
    /\ VCard_String (card st') = VCard_String (card st).
Proof.
  destruct st as [[] lg].
  unfold switch_Name, case_of. cbv zeta. cbn [existsb].
  remember (cl_Name contentLine) as n eqn:Hn.
  by_label n run_display.
  cbn. run_display.
Qed.

(** X13. What [String] shows of the card, the version, the formatted
    name and the family, given and additional names, is changed by
    [ReadFrom] only through [VERSION], [FN] and [N] lines: on a stream
    without such lines [ReadFrom] returns with a card that [String]
    shows exactly as before, whatever telephones, addresses or other
    properties were read. *)
Theorem ReadFrom_keeps_String di st :
  Forall (λ contentLine,
            case_of (cl_Name contentLine) ["VERSION"; "version"; "FN"; "fn"; "N"; "n"]
            = false) di ->
  exists rest st',
    ReadFrom di st = Some (rest, st')
    /\ VCard_String (card st') = VCard_String (card st).
Proof.
  intros Hlines. revert st.
  induction Hlines as [|contentLine di Hline _ IH]; intros st.
  - by exists [], st.
  - destruct (switch_Name_String contentLine st Hline) as (flow & st1 & Hs & Hshow).
    rewrite ReadFrom_step, Hs. destruct flow.
    + destruct (IH st1) as (rest & st' & Hrun & Hshow').
      exists rest, st'. split; [exact Hrun|]. by rewrite Hshow'.
    + by exists di, st1.
Qed.

End Display.

Lemma ReadFrom_keeps_String_witness :
  Forall (λ contentLine,
            case_of (cl_Name contentLine) ["VERSION"; "version"; "FN"; "fn"; "N"; "n"]
            = false)
    [sample_line "TEL" "555-0100"; sample_line "NOTE" "met in Paris"]
  /\ exists rest st',
       @ReadFrom sampleDirInfo
         [sample_line "TEL" "555-0100"; sample_line "NOTE" "met in Paris"]
         (mkState sample_card [])
       = Some (rest, st')
       /\ VCard_String (card st') = VCard_String sample_card.
Proof.
  assert (Forall (λ contentLine,
                    case_of (cl_Name contentLine)
                      ["VERSION"; "version"; "FN"; "fn"; "N"; "n"] = false)
            [sample_line "TEL" "555-0100"; sample_line "NOTE" "met in Paris"]) as Hlines.
  { repeat constructor. }
  split; [exact Hlines|].
  apply (@ReadFrom_keeps_String sampleDirInfo
           [sample_line "TEL" "555-0100"; sample_line "NOTE" "met in Paris"]
           (mkState sample_card []) Hlines).
Defined.
